(** * Sheet-MCP-Server: the Google Sheets tool server of [main.py]

    A shallow embedding of [GoogleSheetsServer]: the authenticator
    ([authenticate_google_services]), the tool catalog ([handle_list_tools]),
    the dispatcher ([handle_call_tool]) and the seven operations, followed by
    the properties the specification states about them.

    Modelling conventions.
    - Python values that travel through the server (tool arguments, cell
      values, JSON payloads) are [pyval] trees.  A Python [str] is a Rocq
      [string] whose characters are the code points below 256; a [float] is
      carried by its [repr] text, since the server never computes with one.
    - A [dict] that is only read by key (the [arguments] of a call, the
      keyword arguments of a remote request) is a [gmap]; a [dict] that is
      serialised (an envelope, a schema) is an association list in insertion
      order, which is the order [json.dumps] writes.
    - The attributes [self.sheets_service] and [self.drive_service] are the
      record [server], threaded through a state-and-exception monad [M] that
      also records the calls made to the outside world.
    - The outside world (files, environment, Google client libraries) is the
      record [World] of oracles.  [logger] calls have no effect on any
      result and are left out. *)

From Stdlib Require Import ZArith Ascii String DecimalString.
From stdpp Require Import base option list strings gmap sorting.

Local Open Scope Z_scope.

#[local] Set Warnings "-register-all".

(** ** Python values *)

Inductive pyval : Type :=
| VNone
| VBool (b : bool)
| VInt (z : Z)
| VFloat (repr : string)
| VStr (s : string)
| VList (l : list pyval)
| VDict (d : list (string * pyval)).

Definition py_type_name (v : pyval) : string :=
  match v with
  | VNone => "NoneType"
  | VBool _ => "bool"
  | VInt _ => "int"
  | VFloat _ => "float"
  | VStr _ => "str"
  | VList _ => "list"
  | VDict _ => "dict"
  end.

(** Truth value of an object, as [if x:] and [not x] test it. *)
Definition py_truthy (v : pyval) : bool :=
  match v with
  | VNone => false
  | VBool b => b
  | VInt z => negb (z =? 0)
  | VFloat r => negb (String.eqb r "0.0" || String.eqb r "-0.0")
  | VStr s => negb (String.eqb s EmptyString)
  | VList l => match l with [] => false | _ => true end
  | VDict d => match d with [] => false | _ => true end
  end.

(** ** Strings *)

Definition squote : ascii := "039"%char.
Definition dquote : ascii := "034"%char.
Definition backslash : ascii := "092"%char.
Definition newline : ascii := "010"%char.

Definition chr (c : ascii) : string := String c EmptyString.

Definition str_of_Z (z : Z) : string := NilZero.string_of_int (Z.to_int z).

Definition hex_digit (n : N) : ascii :=
  if (n <? 10)%N then ascii_of_N (48 + n) else ascii_of_N (87 + n).

Definition hex2 (c : ascii) : string :=
  let n := N_of_ascii c in
  String (hex_digit (n / 16)) (String (hex_digit (n mod 16)) EmptyString).

Fixpoint str_has (c : ascii) (s : string) : bool :=
  match s with
  | EmptyString => false
  | String a s' => Ascii.eqb a c || str_has c s'
  end.

Fixpoint str_concat_map (f : ascii → string) (s : string) : string :=
  match s with
  | EmptyString => EmptyString
  | String a s' => f a +:+ str_concat_map f s'
  end.

Fixpoint str_map (f : ascii → ascii) (s : string) : string :=
  match s with
  | EmptyString => EmptyString
  | String a s' => String (f a) (str_map f s')
  end.

Fixpoint str_join (sep : string) (l : list string) : string :=
  match l with
  | [] => EmptyString
  | [x] => x
  | x :: l' => x +:+ sep +:+ str_join sep l'
  end.

(** [str.isprintable] on one code point below 256. *)
Definition is_printable (c : ascii) : bool :=
  let n := N_of_ascii c in
  ((32 <=? n) && (n <=? 126) || (161 <=? n) && negb (n =? 173))%N.

(** [repr] of a [str]: double quotes are chosen only when the text has a
    single quote and no double quote. *)
Definition repr_char (q c : ascii) : string :=
  if Ascii.eqb c backslash then String backslash (chr backslash)
  else if Ascii.eqb c q then String backslash (chr q)
  else if Ascii.eqb c "009"%char then String backslash "t"
  else if Ascii.eqb c "010"%char then String backslash "n"
  else if Ascii.eqb c "013"%char then String backslash "r"
  else if is_printable c then chr c
  else String backslash ("x" +:+ hex2 c).

Definition repr_str (s : string) : string :=
  let q := if str_has squote s && negb (str_has dquote s) then dquote else squote in
  String q (str_concat_map (repr_char q) s) +:+ chr q.

Fixpoint py_repr (v : pyval) : string :=
  match v with
  | VNone => "None"
  | VBool true => "True"
  | VBool false => "False"
  | VInt z => str_of_Z z
  | VFloat r => r
  | VStr s => repr_str s
  | VList l => "[" +:+ str_join ", " (map py_repr l) +:+ "]"
  | VDict d =>
      "{" +:+ str_join ", " (map (λ kv, repr_str (fst kv) +:+ ": " +:+ py_repr (snd kv)) d)
          +:+ "}"
  end.

(** [str(x)], also what an f-string writes for [{x}]. *)
Definition py_str (v : pyval) : string :=
  match v with
  | VStr s => s
  | _ => py_repr v
  end.

(** [str.lower] on one code point below 256: the ASCII capitals and the
    Latin-1 capitals (all of 0xC0..0xDE but the multiplication sign). *)
Definition lower_char (c : ascii) : ascii :=
  let n := N_of_ascii c in
  if ((65 <=? n) && (n <=? 90) || (192 <=? n) && (n <=? 222) && negb (n =? 215))%N
  then ascii_of_N (n + 32) else c.

Definition lower (s : string) : string := str_map lower_char s.

(** [needle in hay] on two [str]. *)
Fixpoint str_contains (needle hay : string) : bool :=
  String.prefix needle hay ||
  match hay with
  | EmptyString => false
  | String _ hay' => str_contains needle hay'
  end.

(** ** [json.dumps(obj, indent=n)]

    The defaults apply: [ensure_ascii] escapes everything outside the
    printable ASCII range, the item separator is a comma and the key
    separator a colon and a space. *)

Definition json_escape_char (c : ascii) : string :=
  if Ascii.eqb c dquote then String backslash (chr dquote)
  else if Ascii.eqb c backslash then String backslash (chr backslash)
  else if Ascii.eqb c "010"%char then String backslash "n"
  else if Ascii.eqb c "013"%char then String backslash "r"
  else if Ascii.eqb c "009"%char then String backslash "t"
  else if Ascii.eqb c "008"%char then String backslash "b"
  else if Ascii.eqb c "012"%char then String backslash "f"
  else if ((32 <=? N_of_ascii c) && (N_of_ascii c <=? 126))%N then chr c
  else String backslash ("u00" +:+ hex2 c).

Definition json_str (s : string) : string :=
  String dquote (str_concat_map json_escape_char s) +:+ chr dquote.

Definition json_float (r : string) : string :=
  if String.eqb r "inf" then "Infinity"
  else if String.eqb r "-inf" then "-Infinity"
  else if String.eqb r "nan" then "NaN"
  else r.

Fixpoint spaces (n : nat) : string :=
  match n with
  | O => EmptyString
  | S n' => String " " (spaces n')
  end.

Definition newline_indent (indent level : nat) : string :=
  String newline (spaces (indent * level)).

Fixpoint json_encode (indent level : nat) (v : pyval) : string :=
  match v with
  | VNone => "null"
  | VBool true => "true"
  | VBool false => "false"
  | VInt z => str_of_Z z
  | VFloat r => json_float r
  | VStr s => json_str s
  | VList [] => "[]"
  | VList l =>
      "[" +:+ newline_indent indent (S level)
          +:+ str_join ("," +:+ newline_indent indent (S level))
                (map (json_encode indent (S level)) l)
          +:+ newline_indent indent level +:+ "]"
  | VDict [] => "{}"
  | VDict d =>
      "{" +:+ newline_indent indent (S level)
          +:+ str_join ("," +:+ newline_indent indent (S level))
                (map (λ kv, json_str (fst kv) +:+ ": " +:+ json_encode indent (S level) (snd kv)) d)
          +:+ newline_indent indent level +:+ "}"
  end.

Definition json_dumps (v : pyval) (indent : nat) : string := json_encode indent 0 v.

(** ** Exceptions *)

(** An exception is its class and the text [str(e)] gives. *)
Record exn := Exn { exn_class : string; exn_str : string }.

Definition ValueError (msg : string) : exn := Exn "ValueError" msg.

Definition KeyError (key : string) : exn := Exn "KeyError" (repr_str key).

Definition AttributeError (v : pyval) (attr : string) : exn :=
  Exn "AttributeError"
      ("'" +:+ py_type_name v +:+ "' object has no attribute '" +:+ attr +:+ "'").

(** The classes that stand under [BaseException] but not under
    [Exception]: [except Exception] lets them through.  Every other class
    is taken to be an [Exception]. *)
Definition base_only_classes : list string :=
  [ "BaseException"; "BaseExceptionGroup"; "GeneratorExit"; "KeyboardInterrupt";
    "SystemExit"; "CancelledError" ].

(** [isinstance(e, Exception)]. *)
Definition is_Exception (e : exn) : bool :=
  negb (existsb (String.eqb (exn_class e)) base_only_classes).

Inductive result (A : Type) : Type :=
| Return (a : A)
| Raise (e : exn).
Arguments Return {A} a.
Arguments Raise {A} e.

#[global] Instance result_ret : MRet result := λ A a, Return a.
#[global] Instance result_bind : MBind result := λ A B k r,
  match r with
  | Return a => k a
  | Raise e => Raise e
  end.

(** ** Credentials, service handles and the server object *)

(** [google.oauth2.credentials.Credentials], by the attributes the server
    reads. *)
Record Credentials := {
  token : string;
  refresh_token : option string;
  valid : bool;
  expired : bool
}.

Inductive auth : Type :=
| WithCredentials (creds : Credentials)
| WithDeveloperKey (developerKey : string).

(** What [build(serviceName, version, ...)] returns.  A service object has
    no [__bool__] or [__len__], so it is always true where tested. *)
Record handle := Build {
  serviceName : string;
  version : string;
  service_auth : auth
}.

(** The two attributes of [GoogleSheetsServer] that change. *)
Record server := {
  sheets_service : option handle;
  drive_service : option handle
}.

(** [GoogleSheetsServer.__init__]. *)
Definition init : server := {| sheets_service := None; drive_service := None |}.

(** ** Responses of the remote capabilities

    Fields the code reads with [.get] and fields it subscripts are both
    optional here; a subscript of an absent field raises [KeyError]. *)

Module Sheets.
Record values_response := { values : option (list (list pyval)) }.

Record grid_properties := {
  rowCount : option pyval;
  columnCount : option pyval
}.

Record sheet_properties := {
  sheetId : option pyval;
  title : option pyval;
  index : option pyval;
  sheetType : option pyval;
  gridProperties : option grid_properties
}.

Record sheet := { properties : option sheet_properties }.

Record spreadsheet_properties := {
  sp_title : option pyval;
  sp_locale : option pyval;
  sp_timeZone : option pyval
}.

Record spreadsheet := {
  sp_properties : option spreadsheet_properties;
  sheets : option (list sheet)
}.
End Sheets.

Module Drive.
Record owner := {
  displayName : option pyval;
  emailAddress : option pyval
}.

Record file := {
  id : option pyval;
  name : option pyval;
  modifiedTime : option pyval;
  createdTime : option pyval;
  owners : option (list owner);
  shared : option pyval
}.

Record file_list := {
  files : option (list file);
  nextPageToken : option pyval
}.
End Drive.

(** ** The outside world *)

Record World := {
  (** [token.json]: absent, or what [Credentials.from_authorized_user_file]
      makes of it. *)
  token_json : option (result Credentials);
  (** [os.path.exists('credentials.json')]. *)
  credentials_json : bool;
  (** [os.getenv("GOOGLE_SHEETS_API_KEY")]. *)
  GOOGLE_SHEETS_API_KEY : option string;
  (** [creds.refresh(Request())]: the credentials after the refresh. *)
  refresh : Credentials → result Credentials;
  (** [InstalledAppFlow.from_client_secrets_file(...).run_local_server(port=0)]. *)
  run_local_server : result Credentials;
  (** Writing [creds.to_json()] to [token.json]. *)
  write_token : Credentials → result ();
  (** [googleapiclient.discovery.build]. *)
  build : string → string → auth → result handle;
  (** [spreadsheets().values().get(...).execute()]. *)
  sheets_values_get : handle → gmap string pyval → result Sheets.values_response;
  (** [spreadsheets().get(...).execute()]. *)
  sheets_get : handle → gmap string pyval → result Sheets.spreadsheet;
  (** [files().list(...).execute()]. *)
  drive_files_list : handle → gmap string pyval → result Drive.file_list
}.

(** Every call that leaves the process, in the order made.  [EvAuthenticate]
    marks an entry into [authenticate_google_services]. *)
Inductive event : Type :=
| EvAuthenticate
| EvLoadToken
| EvRefresh (creds : Credentials)
| EvRunLocalServer
| EvWriteToken (creds : Credentials)
| EvBuild (serviceName version : string) (a : auth)
| EvSheetsValuesGet (h : handle) (kwargs : gmap string pyval)
| EvSheetsGet (h : handle) (kwargs : gmap string pyval)
| EvDriveFilesList (h : handle) (kwargs : gmap string pyval).

Definition is_auth_event (ev : event) : bool :=
  match ev with
  | EvAuthenticate | EvLoadToken | EvRefresh _ | EvRunLocalServer
  | EvWriteToken _ | EvBuild _ _ _ => true
  | _ => false
  end.

Definition is_remote_call (ev : event) : bool :=
  match ev with
  | EvSheetsValuesGet _ _ | EvSheetsGet _ _ | EvDriveFilesList _ _ => true
  | _ => false
  end.

(** ** The monad of methods of the server

    A method runs from a state of [self] to a result or an exception, the
    state of [self] at that point, and the trace of calls it made.  An
    assignment made before an exception stays made. *)

Definition M (A : Type) : Type := server → result A * server * list event.

#[global] Instance M_ret : MRet M := λ A a self, (Return a, self, []).

#[global] Instance M_bind : MBind M := λ A B k m self,
  match m self with
  | (Return a, self1, tr1) =>
      match k a self1 with
      | (r, self2, tr2) => (r, self2, tr1 ++ tr2)
      end
  | (Raise e, self1, tr1) => (Raise e, self1, tr1)
  end.

Definition raise {A} (e : exn) : M A := λ self, (Raise e, self, []).

(** [try: body  except Exception as e: handler e].  An exception that is
    not an [Exception] passes through. *)
Definition try_except {A} (body : M A) (handler : exn → M A) : M A := λ self,
  match body self with
  | (Return a, self1, tr1) => (Return a, self1, tr1)
  | (Raise e, self1, tr1) =>
      if is_Exception e then
        match handler e self1 with
        | (r, self2, tr2) => (r, self2, tr1 ++ tr2)
        end
      else (Raise e, self1, tr1)
  end.

Definition get_self : M server := λ self, (Return self, self, []).

Definition set_sheets_service (h : handle) : M () := λ self,
  (Return (), {| sheets_service := Some h; drive_service := drive_service self |}, []).

Definition set_drive_service (h : handle) : M () := λ self,
  (Return (), {| sheets_service := sheets_service self; drive_service := Some h |}, []).

(** A call to the outside world: recorded, then its result or exception. *)
Definition call {A} (ev : event) (r : result A) : M A := λ self, (r, self, [ev]).

Definition lift {A} (r : result A) : M A := λ self, (r, self, []).

(** ** The authenticator *)

Definition SCOPES : list string :=
  [ "https://www.googleapis.com/auth/spreadsheets";
    "https://www.googleapis.com/auth/drive" ].

(** [creds.expired and creds.refresh_token], for credentials that exist. *)
Definition refreshable (creds : Credentials) : bool :=
  expired creds &&
  match refresh_token creds with
  | Some t => negb (String.eqb t EmptyString)
  | None => false
  end.

(** Where the block under [if not creds or not creds.valid] leaves the
    method: at its [return], or past the block with credentials in hand. *)
Inductive login_outcome : Type :=
| Returned
| Continue (creds : Credentials).

Definition build_service (w : World) (serviceName version : string) (a : auth) : M handle :=
  call (EvBuild serviceName version a) (build w serviceName version a).

Definition missing_credentials : string :=
  "Either credentials.json file or GOOGLE_SHEETS_API_KEY environment variable is required".

(** [authenticate_google_services]. *)
Definition authenticate_google_services (w : World) : M () :=
  call EvAuthenticate (Return ());;
  creds ← match token_json w with
          | Some loaded => c ← call EvLoadToken loaded; mret (Some c)
          | None => mret None
          end;
  let other_sources : M login_outcome :=
    if credentials_json w then
      c ← call EvRunLocalServer (run_local_server w);
      mret (Continue c)
    else
      match GOOGLE_SHEETS_API_KEY w with
      | Some api_key =>
          if negb (String.eqb api_key EmptyString) then
            h ← build_service w "sheets" "v4" (WithDeveloperKey api_key);
            set_sheets_service h;;
            mret Returned
          else raise (ValueError missing_credentials)
      | None => raise (ValueError missing_credentials)
      end in
  let save (o : login_outcome) : M login_outcome :=
    match o with
    | Continue c => call (EvWriteToken c) (write_token w c);; mret (Continue c)
    | Returned => mret Returned
    end in
  o ← match creds with
      | Some c =>
          if negb (valid c) then
            if refreshable c then
              c' ← call (EvRefresh c) (refresh w c);
              save (Continue c')
            else other_sources ≫= save
          else mret (Continue c)
      | None => other_sources ≫= save
      end;
  match o with
  | Returned => mret ()
  | Continue c =>
      try_except
        (sheets ← build_service w "sheets" "v4" (WithCredentials c);
         set_sheets_service sheets;;
         drive ← build_service w "drive" "v3" (WithCredentials c);
         set_drive_service drive)
        (λ error, raise error)
  end.

(** ** The tool catalog *)

Record Tool := {
  tool_name : string;
  tool_description : string;
  inputSchema : pyval
}.

Definition string_property (description : string) : pyval :=
  VDict [("type", VStr "string"); ("description", VStr description)].

Definition spreadsheet_id_property : string * pyval :=
  ("spreadsheet_id", string_property "The ID of the Google Spreadsheet").

Definition object_schema (properties : list (string * pyval)) (required : list string) : pyval :=
  VDict [("type", VStr "object");
         ("properties", VDict properties);
         ("required", VList (VStr <$> required))].

Definition base_tools : list Tool :=
  [ {| tool_name := "read_sheet_data";
       tool_description := "Read data from a Google Sheet by spreadsheet ID and range";
       inputSchema := object_schema
         [ spreadsheet_id_property;
           ("range", VDict [("type", VStr "string");
                            ("description", VStr "The range to read (e.g., 'Sheet1!A1:C10')");
                            ("default", VStr "Sheet1")]) ]
         ["spreadsheet_id"] |};
    {| tool_name := "get_sheet_metadata";
       tool_description := "Get metadata about a Google Spreadsheet";
       inputSchema := object_schema [spreadsheet_id_property] ["spreadsheet_id"] |};
    {| tool_name := "list_sheets";
       tool_description := "List all sheets/tabs in a Google Spreadsheet";
       inputSchema := object_schema [spreadsheet_id_property] ["spreadsheet_id"] |};
    {| tool_name := "search_sheet_data";
       tool_description := "Search for specific data in a Google Sheet";
       inputSchema := object_schema
         [ spreadsheet_id_property;
           ("search_term", string_property "The term to search for");
           ("sheet_name", VDict [("type", VStr "string");
                                 ("description", VStr "Name of the specific sheet to search in");
                                 ("default", VStr "Sheet1")]) ]
         ["spreadsheet_id"; "search_term"] |};
    {| tool_name := "get_range_data";
       tool_description := "Get data from a specific range with formatting options";
       inputSchema := object_schema
         [ spreadsheet_id_property;
           ("range", string_property "The range to read (e.g., 'Sheet1!A1:C10')");
           ("value_render_option",
            VDict [("type", VStr "string");
                   ("description", VStr "How to render values");
                   ("enum", VList [VStr "FORMATTED_VALUE"; VStr "UNFORMATTED_VALUE"; VStr "FORMULA"]);
                   ("default", VStr "FORMATTED_VALUE")]) ]
         ["spreadsheet_id"; "range"] |} ].

Definition drive_tools : list Tool :=
  [ {| tool_name := "list_spreadsheets";
       tool_description := "List all Google Spreadsheets accessible to the authenticated user";
       inputSchema := object_schema
         [ ("limit", VDict [("type", VStr "integer");
                            ("description", VStr "Maximum number of spreadsheets to return");
                            ("default", VInt 20)]);
           ("order_by", VDict [("type", VStr "string");
                               ("description", VStr "How to order results");
                               ("enum", VList [VStr "name"; VStr "modifiedTime"; VStr "createdTime"]);
                               ("default", VStr "modifiedTime desc")]) ]
         [] |};
    {| tool_name := "search_spreadsheets_by_name";
       tool_description := "Search for Google Spreadsheets by name";
       inputSchema := object_schema
         [ ("name", string_property "Name or partial name of the spreadsheet to search for");
           ("exact_match", VDict [("type", VStr "boolean");
                                  ("description", VStr "Whether to search for exact name match");
                                  ("default", VBool false)]) ]
         ["name"] |} ].

(** [handle_list_tools]: the five tools, extended by the two Drive tools
    [if self.drive_service]. *)
Definition handle_list_tools (self : server) : list Tool :=
  let tools := base_tools in
  match drive_service self with
  | Some _ => tools ++ drive_tools
  | None => tools
  end.

(** ** Tool results and argument access *)

Record TextContent := {
  type_ : string;
  text : string
}.

Definition text_content (s : string) : TextContent := {| type_ := "text"; text := s |}.

(** [arguments.get(key, default)]; [arguments] is [dict | None]. *)
Definition arguments_get (arguments : option (gmap string pyval)) (key : string)
    (default_value : pyval) : result pyval :=
  match arguments with
  | Some d => Return (default default_value (d !! key))
  | None => Raise (AttributeError VNone "get")
  end.

(** [d[key]] on a response object. *)
Definition subscript {A} (field : option A) (key : string) : result A :=
  match field with
  | Some x => Return x
  | None => Raise (KeyError key)
  end.

(** [self.sheets_service.spreadsheets()] needs the attribute of a service. *)
Definition spreadsheets (self : server) : result handle :=
  match sheets_service self with
  | Some h => Return h
  | None => Raise (AttributeError VNone "spreadsheets")
  end.

Definition error_envelope (message : string) : pyval :=
  VDict [("status", VStr "error"); ("error", VStr message)].

Definition spreadsheet_mime_query : string :=
  "mimeType='application/vnd.google-apps.spreadsheet'".

(** ** The Drive operations *)

Definition owner_name (o : Drive.owner) : pyval :=
  default (default VNone (Drive.emailAddress o)) (Drive.displayName o).

Definition owner_names (item : Drive.file) : pyval :=
  VList (owner_name <$> default [] (Drive.owners item)).

(** [_list_spreadsheets]. *)
Definition _list_spreadsheets (w : World) (arguments : option (gmap string pyval))
    : M (list TextContent) :=
  self ← get_self;
  match drive_service self with
  | None =>
      mret [text_content (json_dumps (error_envelope
        "Drive API not available. OAuth authentication required to list spreadsheets.") 2)]
  | Some drive =>
      try_except
        (limit ← lift (arguments_get arguments "limit" (VInt 20));
         order_by ← lift (arguments_get arguments "order_by" (VStr "modifiedTime desc"));
         let kwargs : gmap string pyval :=
           {[ "q" := VStr spreadsheet_mime_query;
              "pageSize" := limit;
              "orderBy" := order_by;
              "fields" := VStr "nextPageToken, files(id, name, modifiedTime, createdTime, owners, shared)" ]} in
         results ← call (EvDriveFilesList drive kwargs) (drive_files_list w drive kwargs);
         let items := default [] (Drive.files results) in
         match items with
         | [] =>
             mret [text_content (json_dumps (VDict
               [("status", VStr "success");
                ("message", VStr "No spreadsheets found.");
                ("count", VInt 0);
                ("spreadsheets", VList [])]) 2)]
         | _ =>
             spreadsheets ← lift (mapM (λ item,
               item_id ← subscript (Drive.id item) "id";
               item_name ← subscript (Drive.name item) "name";
               mret (VDict
                 [("id", item_id);
                  ("name", item_name);
                  ("modified_time", default VNone (Drive.modifiedTime item));
                  ("created_time", default VNone (Drive.createdTime item));
                  ("owners", owner_names item);
                  ("shared", default (VBool false) (Drive.shared item))])) items);
             mret [text_content (json_dumps (VDict
               [("status", VStr "success");
                ("count", VInt (Z.of_nat (length spreadsheets)));
                ("spreadsheets", VList spreadsheets);
                ("next_page_token", default VNone (Drive.nextPageToken results))]) 2)]
         end)
        (λ error,
           mret [text_content (json_dumps (error_envelope
             ("An error occurred: " +:+ exn_str error)) 2)])
  end.

(** The filter expression [_search_spreadsheets_by_name] sends: the two
    f-strings, with [{name}] written by [str]. *)
Definition name_query (exact_match name : pyval) : string :=
  if py_truthy exact_match
  then spreadsheet_mime_query +:+ " and name='" +:+ py_str name +:+ "'"
  else spreadsheet_mime_query +:+ " and name contains '" +:+ py_str name +:+ "'".

(** [_search_spreadsheets_by_name]. *)
Definition _search_spreadsheets_by_name (w : World) (arguments : option (gmap string pyval))
    : M (list TextContent) :=
  self ← get_self;
  match drive_service self with
  | None =>
      mret [text_content (json_dumps (error_envelope
        "Drive API not available. OAuth authentication required to search spreadsheets.") 2)]
  | Some drive =>
      try_except
        (name ← lift (arguments_get arguments "name" VNone);
         exact_match ← lift (arguments_get arguments "exact_match" (VBool false));
         let query := name_query exact_match name in
         let kwargs : gmap string pyval :=
           {[ "q" := VStr query;
              "pageSize" := VInt 50;
              "fields" := VStr "nextPageToken, files(id, name, modifiedTime, createdTime, owners)" ]} in
         results ← call (EvDriveFilesList drive kwargs) (drive_files_list w drive kwargs);
         let items := default [] (Drive.files results) in
         match items with
         | [] =>
             mret [text_content (json_dumps (VDict
               [("status", VStr "success");
                ("search_term", name);
                ("exact_match", exact_match);
                ("message", VStr ("No spreadsheets found matching '" +:+ py_str name +:+ "'."));
                ("matches_found", VInt 0);
                ("spreadsheets", VList [])]) 2)]
         | _ =>
             spreadsheets ← lift (mapM (λ item,
               item_id ← subscript (Drive.id item) "id";
               item_name ← subscript (Drive.name item) "name";
               mret (VDict
                 [("id", item_id);
                  ("name", item_name);
                  ("modified_time", default VNone (Drive.modifiedTime item));
                  ("created_time", default VNone (Drive.createdTime item));
                  ("owners", owner_names item)])) items);
             mret [text_content (json_dumps (VDict
               [("status", VStr "success");
                ("search_term", name);
                ("exact_match", exact_match);
                ("matches_found", VInt (Z.of_nat (length spreadsheets)));
                ("spreadsheets", VList spreadsheets);
                ("next_page_token", default VNone (Drive.nextPageToken results))]) 2)]
         end)
        (λ error,
           mret [text_content (json_dumps (error_envelope
             ("An error occurred: " +:+ exn_str error)) 2)])
  end.

(** ** The Sheets operations *)

Definition grid_value (values : list (list pyval)) : pyval := VList (VList <$> values).

(** [len(values[0]) if values else 0]. *)
Definition column_count (values : list (list pyval)) : Z :=
  match values with
  | row0 :: _ => Z.of_nat (length row0)
  | [] => 0
  end.

(** [_read_sheet_data]. *)
Definition _read_sheet_data (w : World) (arguments : option (gmap string pyval))
    : M (list TextContent) :=
  spreadsheet_id ← lift (arguments_get arguments "spreadsheet_id" VNone);
  range_name ← lift (arguments_get arguments "range" (VStr "Sheet1"));
  try_except
    (self ← get_self;
     service ← lift (spreadsheets self);
     let kwargs : gmap string pyval :=
       {[ "spreadsheetId" := spreadsheet_id; "range" := range_name ]} in
     result ← call (EvSheetsValuesGet service kwargs) (sheets_values_get w service kwargs);
     let values := default [] (Sheets.values result) in
     match values with
     | [] =>
         mret [text_content (json_dumps (VDict
           [("status", VStr "success");
            ("message", VStr "No data found in the specified range");
            ("data", VList [])]) 2)]
     | _ =>
         mret [text_content (json_dumps (VDict
           [("status", VStr "success");
            ("spreadsheet_id", spreadsheet_id);
            ("range", range_name);
            ("row_count", VInt (Z.of_nat (length values)));
            ("column_count", VInt (column_count values));
            ("data", grid_value values)]) 2)]
     end)
    (λ e, mret [text_content (json_dumps (error_envelope (exn_str e)) 2)]).

Definition sheet_metadata (sheet : Sheets.sheet) : result pyval :=
  props ← subscript (Sheets.properties sheet) "properties";
  sheet_id ← subscript (Sheets.sheetId props) "sheetId";
  title ← subscript (Sheets.title props) "title";
  let grid := Sheets.gridProperties props in
  mret (VDict
    [("sheet_id", sheet_id);
     ("title", title);
     ("sheet_type", default (VStr "GRID") (Sheets.sheetType props));
     ("row_count", default VNone (grid ≫= Sheets.rowCount));
     ("column_count", default VNone (grid ≫= Sheets.columnCount))]).

(** [_get_sheet_metadata]. *)
Definition _get_sheet_metadata (w : World) (arguments : option (gmap string pyval))
    : M (list TextContent) :=
  spreadsheet_id ← lift (arguments_get arguments "spreadsheet_id" VNone);
  try_except
    (self ← get_self;
     service ← lift (spreadsheets self);
     let kwargs : gmap string pyval := {[ "spreadsheetId" := spreadsheet_id ]} in
     result ← call (EvSheetsGet service kwargs) (sheets_get w service kwargs);
     let props := Sheets.sp_properties result in
     let sheet_list := default [] (Sheets.sheets result) in
     sheets ← lift (mapM sheet_metadata sheet_list);
     let metadata := VDict
       [("status", VStr "success");
        ("title", default VNone (props ≫= Sheets.sp_title));
        ("locale", default VNone (props ≫= Sheets.sp_locale));
        ("time_zone", default VNone (props ≫= Sheets.sp_timeZone));
        ("sheet_count", VInt (Z.of_nat (length sheet_list)));
        ("sheets", VList sheets)] in
     mret [text_content (json_dumps metadata 2)])
    (λ e, mret [text_content (json_dumps (error_envelope (exn_str e)) 2)]).

Definition sheet_summary (sheet : Sheets.sheet) : result pyval :=
  props ← subscript (Sheets.properties sheet) "properties";
  sheet_id ← subscript (Sheets.sheetId props) "sheetId";
  title ← subscript (Sheets.title props) "title";
  index ← subscript (Sheets.index props) "index";
  mret (VDict
    [("sheet_id", sheet_id);
     ("title", title);
     ("index", index);
     ("sheet_type", default (VStr "GRID") (Sheets.sheetType props))]).

(** [_list_sheets]. *)
Definition _list_sheets (w : World) (arguments : option (gmap string pyval))
    : M (list TextContent) :=
  spreadsheet_id ← lift (arguments_get arguments "spreadsheet_id" VNone);
  try_except
    (self ← get_self;
     service ← lift (spreadsheets self);
     let kwargs : gmap string pyval :=
       {[ "spreadsheetId" := spreadsheet_id; "fields" := VStr "sheets.properties" ]} in
     result ← call (EvSheetsGet service kwargs) (sheets_get w service kwargs);
     sheets ← lift (mapM sheet_summary (default [] (Sheets.sheets result)));
     mret [text_content (json_dumps (VDict
       [("status", VStr "success");
        ("spreadsheet_id", spreadsheet_id);
        ("sheet_count", VInt (Z.of_nat (length sheets)));
        ("sheets", VList sheets)]) 2)])
    (λ e, mret [text_content (json_dumps (error_envelope (exn_str e)) 2)]).

(** [for i, x in enumerate(l): acc = body(acc, i, x)], counting from
    [start]; an exception in the body leaves the loop. *)
Fixpoint for_enumerate {A S : Type} (body : S → Z → A → result S) (start : Z)
    (l : list A) (acc : S) : result S :=
  match l with
  | [] => Return acc
  | x :: l' =>
      match body acc start x with
      | Return acc' => for_enumerate body (start + 1) l' acc'
      | Raise e => Raise e
      end
  end.

(** [search_term.lower()]: only a [str] has the method. *)
Definition lower_method (v : pyval) : result string :=
  match v with
  | VStr s => Return (lower s)
  | _ => Raise (AttributeError v "lower")
  end.

Definition match_entry (row_idx col_idx : Z) (cell : pyval) (row : list pyval) : pyval :=
  VDict [("row", VInt (row_idx + 1));
         ("column", VInt (col_idx + 1));
         ("cell_value", cell);
         ("full_row", VList row)].

(** The inner loop of [_search_sheet_data], over the cells of one row. *)
Definition scan_row (search_term : pyval) (matches : list pyval) (row_idx : Z)
    (row : list pyval) : result (list pyval) :=
  for_enumerate
    (λ matches col_idx cell,
       needle ← lower_method search_term;
       if str_contains needle (lower (py_str cell))
       then mret (matches ++ [match_entry row_idx col_idx cell row])
       else mret matches)
    0 row matches.

(** The outer loop, starting from [matches = []]. *)
Definition scan_values (search_term : pyval) (values : list (list pyval))
    : result (list pyval) :=
  for_enumerate (scan_row search_term) 0 values [].

(** [_search_sheet_data]. *)
Definition _search_sheet_data (w : World) (arguments : option (gmap string pyval))
    : M (list TextContent) :=
  spreadsheet_id ← lift (arguments_get arguments "spreadsheet_id" VNone);
  search_term ← lift (arguments_get arguments "search_term" VNone);
  sheet_name ← lift (arguments_get arguments "sheet_name" (VStr "Sheet1"));
  try_except
    (self ← get_self;
     service ← lift (spreadsheets self);
     let kwargs : gmap string pyval :=
       {[ "spreadsheetId" := spreadsheet_id; "range" := sheet_name ]} in
     result ← call (EvSheetsValuesGet service kwargs) (sheets_values_get w service kwargs);
     let values := default [] (Sheets.values result) in
     matches ← lift (scan_values search_term values);
     mret [text_content (json_dumps (VDict
       [("status", VStr "success");
        ("search_term", search_term);
        ("sheet_name", sheet_name);
        ("matches_found", VInt (Z.of_nat (length matches)));
        ("matches", VList matches)]) 2)])
    (λ e, mret [text_content (json_dumps (error_envelope (exn_str e)) 2)]).

(** [_get_range_data]. *)
Definition _get_range_data (w : World) (arguments : option (gmap string pyval))
    : M (list TextContent) :=
  spreadsheet_id ← lift (arguments_get arguments "spreadsheet_id" VNone);
  range_name ← lift (arguments_get arguments "range" VNone);
  value_render_option ←
    lift (arguments_get arguments "value_render_option" (VStr "FORMATTED_VALUE"));
  try_except
    (self ← get_self;
     service ← lift (spreadsheets self);
     let kwargs : gmap string pyval :=
       {[ "spreadsheetId" := spreadsheet_id;
          "range" := range_name;
          "valueRenderOption" := value_render_option ]} in
     result ← call (EvSheetsValuesGet service kwargs) (sheets_values_get w service kwargs);
     let values := default [] (Sheets.values result) in
     mret [text_content (json_dumps (VDict
       [("status", VStr "success");
        ("spreadsheet_id", spreadsheet_id);
        ("range", range_name);
        ("value_render_option", value_render_option);
        ("row_count", VInt (Z.of_nat (length values)));
        ("column_count", VInt (column_count values));
        ("data", grid_value values)]) 2)])
    (λ e, mret [text_content (json_dumps (error_envelope (exn_str e)) 2)]).

(** ** The dispatcher *)

(** [handle_call_tool].  The authentication of a server without a Sheets
    service comes before the [try]. *)
Definition handle_call_tool (w : World) (name : string)
    (arguments : option (gmap string pyval)) : M (list TextContent) :=
  self ← get_self;
  (match sheets_service self with
   | None => authenticate_google_services w
   | Some _ => mret ()
   end);;
  try_except
    (if String.eqb name "list_spreadsheets" then _list_spreadsheets w arguments
     else if String.eqb name "search_spreadsheets_by_name" then
       _search_spreadsheets_by_name w arguments
     else if String.eqb name "read_sheet_data" then _read_sheet_data w arguments
     else if String.eqb name "get_sheet_metadata" then _get_sheet_metadata w arguments
     else if String.eqb name "list_sheets" then _list_sheets w arguments
     else if String.eqb name "search_sheet_data" then _search_sheet_data w arguments
     else if String.eqb name "get_range_data" then _get_range_data w arguments
     else raise (ValueError ("Unknown tool: " +:+ name)))
    (λ e, mret [text_content ("Error: " +:+ exn_str e)]).

(** The names [handle_call_tool] dispatches on. *)
Definition tool_table : list string :=
  [ "list_spreadsheets"; "search_spreadsheets_by_name"; "read_sheet_data";
    "get_sheet_metadata"; "list_sheets"; "search_sheet_data"; "get_range_data" ].

(** ** The process *)

(** The pre-authentication of [main]: an [Exception] is logged and dropped. *)
Definition main_pre_authenticate (w : World) : M () :=
  try_except (authenticate_google_services w) (λ e, mret ()).

(** After [main] has started the server, the host's tool calls reach
    [handle_call_tool] one at a time on the same server object, each in the
    world of its moment.  An exception that leaves the handler ends that
    call only. *)
Fixpoint serve (calls : list (World * string * option (gmap string pyval)))
    (self : server) : list (result (list TextContent)) * server * list event :=
  match calls with
  | [] => ([], self, [])
  | (w, name, arguments) :: calls' =>
      match handle_call_tool w name arguments self with
      | (r, self1, tr1) =>
          match serve calls' self1 with
          | (rs, self2, tr2) => (r :: rs, self2, tr1 ++ tr2)
          end
      end
  end.

(** * Properties *)

(** ** Envelopes *)

(** The uniform response body: a serialised object that opens with its
    [status], followed by payload fields on success and by the [error]
    message alone on failure. *)
Inductive envelope : string → Prop :=
| envelope_success (payload : list (string * pyval)) :
    envelope (json_dumps (VDict (("status", VStr "success") :: payload)) 2)
| envelope_error (message : string) :
    envelope (json_dumps (error_envelope message) 2).

Definition is_error_envelope (t : string) : Prop :=
  ∃ message, t = json_dumps (error_envelope message) 2.

(** The value of a field of an object under construction. *)
Fixpoint field (key : string) (d : list (string * pyval)) : option pyval :=
  match d with
  | [] => None
  | (k, v) :: d' => if String.eqb k key then Some v else field key d'
  end.

(** ** Sample worlds *)

Definition expired_creds : Credentials :=
  {| token := "stale"; refresh_token := Some "refresh-me"; valid := false; expired := true |}.

Definition fresh_creds : Credentials :=
  {| token := "fresh"; refresh_token := Some "refresh-me"; valid := true; expired := false |}.

Definition no_files : Drive.file_list :=
  {| Drive.files := Some []; Drive.nextPageToken := None |}.

Definition no_spreadsheet : Sheets.spreadsheet :=
  {| Sheets.sp_properties := None; Sheets.sheets := None |}.

(** A world in which every library call succeeds, for the given credential
    sources, refresh behaviour and sheet contents. *)
Definition world (stored : option (result Credentials)) (client_secrets : bool)
    (api_key : option string) (refreshed : result Credentials)
    (grid : list (list pyval)) : World :=
  {| token_json := stored;
     credentials_json := client_secrets;
     GOOGLE_SHEETS_API_KEY := api_key;
     refresh := λ _, refreshed;
     run_local_server := Return fresh_creds;
     write_token := λ _, Return ();
     build := λ n v a, Return (Build n v a);
     sheets_values_get := λ _ _, Return {| Sheets.values := Some grid |};
     sheets_get := λ _ _, Return no_spreadsheet;
     drive_files_list := λ _ _, Return no_files |}.

Definition sample_grid : list (list pyval) :=
  [[VStr "Alice"; VStr "5"]; [VStr "bob"; VStr "7"]].

(** Nothing to authenticate with. *)
Definition world_without_sources : World :=
  world None false None (Raise (Exn "RefreshError" "invalid_grant")) sample_grid.

(** A stale token whose refresh is refused, and an API key. *)
Definition world_refresh_refused : World :=
  world (Some (Return expired_creds)) false (Some "key")
        (Raise (Exn "RefreshError" "invalid_grant")) sample_grid.

(** Only an API key. *)
Definition world_api_key : World :=
  world None false (Some "key") (Raise (Exn "RefreshError" "invalid_grant")) sample_grid.

(** A valid stored token. *)
Definition world_oauth : World :=
  world (Some (Return fresh_creds)) false None (Return fresh_creds) sample_grid.

Definition key_sheets : handle := Build "sheets" "v4" (WithDeveloperKey "key").
Definition oauth_sheets : handle := Build "sheets" "v4" (WithCredentials fresh_creds).
Definition oauth_drive : handle := Build "drive" "v3" (WithCredentials fresh_creds).

(** The server after the API-key fallback, and after OAuth. *)
Definition server_api_key : server :=
  {| sheets_service := Some key_sheets; drive_service := None |}.

Definition server_oauth : server :=
  {| sheets_service := Some oauth_sheets; drive_service := Some oauth_drive |}.

(** ** What the properties speak of *)

(** The provider request recorded in a trace raised [e]. *)
Definition provider_raises (w : World) (tr : list event) (e : exn) : Prop :=
  match tr with
  | [EvSheetsValuesGet h kwargs] => sheets_values_get w h kwargs = Raise e
  | [EvSheetsGet h kwargs] => sheets_get w h kwargs = Raise e
  | [EvDriveFilesList h kwargs] => drive_files_list w h kwargs = Raise e
  | _ => False
  end.

(** What every operation does on any server: it leaves [self] as it was
    and makes no call of the authenticator and at most one request to the
    provider.  It returns one text content, an envelope when it was given
    an argument mapping.  It raises an [Exception] only for want of a
    mapping, before any request; anything else it raises is what the
    provider request raised, and is not an [Exception]. *)
Definition well_behaved (w : World) (op : M (list TextContent)) (mapping : bool) : Prop :=
  ∀ self, ∃ r tr,
    op self = (r, self, tr) ∧
    Forall (λ ev, is_auth_event ev = false) tr ∧
    (length tr ≤ 1)%nat ∧
    Forall (λ ev, is_remote_call ev = true) tr ∧
    match r with
    | Return content => ∃ t, content = [text_content t] ∧ (mapping = true → envelope t)
    | Raise e =>
        if is_Exception e then mapping = false ∧ tr = []
        else provider_raises w tr e
    end.

(** What a tool call gives on a server that has its Sheets service: one
    text content, or the exception, not an [Exception], that the provider
    request raised. *)
Definition answered (w : World) (r : result (list TextContent)) (tr : list event)
    (enveloped : Prop) : Prop :=
  match r with
  | Return content => ∃ t, content = [text_content t] ∧ (enveloped → envelope t)
  | Raise e => is_Exception e = false ∧ provider_raises w tr e
  end.

(** Whatever the provider raises is an [Exception]. *)
Definition provider_raises_only_Exceptions (w : World) : Prop :=
  ∀ tr e, provider_raises w tr e → is_Exception e = true.

(** The part of the filter expression before the interpolated name,
    opening quote included. *)
Definition name_query_prefix (exact_match : pyval) : string :=
  if py_truthy exact_match
  then spreadsheet_mime_query +:+ " and name='"
  else spreadsheet_mime_query +:+ " and name contains '".

(** How the provider reads a quoted string of a filter expression, from
    just after the opening quote: a backslash takes the next character as
    it is, and the first quote not so taken closes the string.  The result
    is the text read and what follows the closing quote. *)
Fixpoint read_literal (s : string) : option (string * string) :=
  match s with
  | EmptyString => None
  | String c s' =>
      if Ascii.eqb c squote then Some (EmptyString, s')
      else if Ascii.eqb c backslash then
        match s' with
        | EmptyString => None
        | String c' s'' =>
            match read_literal s'' with
            | Some (lit, rest) => Some (String c' lit, rest)
            | None => None
            end
        end
      else
        match read_literal s' with
        | Some (lit, rest) => Some (String c lit, rest)
        | None => None
        end
  end.

(** The name reaches the provider as literal data: the quoted string of
    the query reads back as the name, and the query ends there. *)
Definition literal_in_query (exact_match : pyval) (name : string) : Prop :=
  ∃ rest,
    name_query exact_match (VStr name) = name_query_prefix exact_match +:+ rest ∧
    read_literal rest = Some (name, EmptyString).

(** The cell holds the term as a substring, letter case aside. *)
Definition contains_ci (term : string) (cell : pyval) : Prop :=
  ∃ before after, lower (py_str cell) = before +:+ lower term +:+ after.

Definition int_field (key : string) (m : pyval) : option Z :=
  match m with
  | VDict d => match field key d with Some (VInt z) => Some z | _ => None end
  | _ => None
  end.

(** One reported match comes before another in the scan: an earlier row,
    or the same row and an earlier column. *)
Definition scan_before (m1 m2 : pyval) : Prop :=
  match int_field "row" m1, int_field "column" m1,
        int_field "row" m2, int_field "column" m2 with
  | Some r1, Some c1, Some r2, Some c2 => r1 < r2 ∨ (r1 = r2 ∧ c1 < c2)
  | _, _, _, _ => False
  end.

(** The matches the inner loop adds for the cells [cells] of [row], the
    first of which stands in column [col]. *)
Fixpoint row_matches (term : string) (row_idx : Z) (row : list pyval) (col : Z)
    (cells : list pyval) : list pyval :=
  match cells with
  | [] => []
  | cell :: cells' =>
      (if str_contains (lower term) (lower (py_str cell))
       then [match_entry row_idx col cell row] else [])
      ++ row_matches term row_idx row (col + 1) cells'
  end.

(** The matches the outer loop adds for the rows [rows], the first of
    which has index [row_idx]. *)
Fixpoint grid_matches (term : string) (row_idx : Z) (rows : list (list pyval))
    : list pyval :=
  match rows with
  | [] => []
  | row :: rows' =>
      row_matches term row_idx row 0 row ++ grid_matches term (row_idx + 1) rows'
  end.

(** No usable stored credential: no [token.json], or one that is neither
    valid nor refreshable. *)
Definition stored_unusable (w : World) : Prop :=
  token_json w = None ∨
  ∃ c, token_json w = Some (Return c) ∧ valid c = false ∧ refreshable c = false.

Definition load_trace (w : World) : list event :=
  match token_json w with
  | Some _ => [EvLoadToken]
  | None => []
  end.

(** A name that takes a quote into the filter expression. *)
Definition quoting_name : string := "x' or name contains 'y".

(** ** Resources *)

Record Resource := {
  uri : string;
  resource_name : string;
  resource_description : string;
  mimeType : string
}.

(** [handle_list_resources]. *)
Definition handle_list_resources : list Resource :=
  [ {| uri := "sheets://";
       resource_name := "Google Sheets Reader";
       resource_description := "Access and read Google Sheets data";
       mimeType := "application/json" |} ].

(** [json.dumps(obj)] with no [indent]: one line, items separated by a
    comma and a space. *)
Fixpoint json_encode_compact (v : pyval) : string :=
  match v with
  | VNone => "null"
  | VBool true => "true"
  | VBool false => "false"
  | VInt z => str_of_Z z
  | VFloat r => json_float r
  | VStr s => json_str s
  | VList l => "[" +:+ str_join ", " (map json_encode_compact l) +:+ "]"
  | VDict d =>
      "{" +:+ str_join ", "
                (map (λ kv, json_str (fst kv) +:+ ": " +:+ json_encode_compact (snd kv)) d)
          +:+ "}"
  end.

(** The names [handle_read_resource] lists under [capabilities]. *)
Definition capabilities : list string :=
  [ "list_spreadsheets"; "search_spreadsheets_by_name"; "read_sheet_data";
    "get_sheet_metadata"; "list_sheets"; "get_range_data"; "search_sheet_data" ].

(** [handle_read_resource]: the same document for every [uri]. *)
Definition handle_read_resource (uri : string) : string :=
  json_encode_compact (VDict
    [("type", VStr "google_sheets_resource");
     ("description", VStr "Google Sheets MCP Server for reading spreadsheet data");
     ("capabilities", VList (VStr <$> capabilities))]).

(** ** The whole run *)

(** [main]: a fresh server object, the pre-authentication, then the tool
    calls the host sends.  What [except Exception] lets through ends the
    process before the server is started. *)
Definition main (w : World) (calls : list (World * string * option (gmap string pyval)))
    : list (result (list TextContent)) * server * list event :=
  match main_pre_authenticate w init with
  | (Return _, self1, tr1) =>
      match serve calls self1 with
      | (replies, self2, tr2) => (replies, self2, tr1 ++ tr2)
      end
  | (Raise _, self1, tr1) => ([], self1, tr1)
  end.

(** The Drive service is there only if the Sheets service is. *)
Definition drive_implies_sheets (self : server) : Prop :=
  is_Some (drive_service self) → is_Some (sheets_service self).

(** The events of a run that name a credential source being used. *)
Definition is_source_event (ev : event) : bool :=
  match ev with
  | EvRefresh _ | EvRunLocalServer | EvBuild _ _ (WithDeveloperKey _) => true
  | _ => false
  end.

Definition is_build_event (ev : event) : bool :=
  match ev with
  | EvBuild _ _ _ => true
  | _ => false
  end.

(** The number of cells of a grid. *)
Definition cell_count (rows : list (list pyval)) : nat :=
  sum_list (length <$> rows).

(** A file the Drive operations can report: it has an [id] and a [name]. *)
Definition has_id_and_name (item : Drive.file) : Prop :=
  is_Some (Drive.id item) ∧ is_Some (Drive.name item).

(** A sheet both sheet operations can read up to its [index]. *)
Definition has_id_and_title (sheet : Sheets.sheet) : Prop :=
  ∃ props, Sheets.properties sheet = Some props ∧
           is_Some (Sheets.sheetId props) ∧ is_Some (Sheets.title props).

Definition has_index (sheet : Sheets.sheet) : Prop :=
  ∃ props, Sheets.properties sheet = Some props ∧ is_Some (Sheets.index props).

(** A world whose Sheets service was built but whose Drive build fails. *)
Definition world_drive_build_fails : World :=
  {| token_json := Some (Return fresh_creds);
     credentials_json := false;
     GOOGLE_SHEETS_API_KEY := None;
     refresh := λ _, Return fresh_creds;
     run_local_server := Return fresh_creds;
     write_token := λ _, Return ();
     build := λ n v a,
       if String.eqb n "drive" then Raise (Exn "HttpError" "drive discovery failed")
       else Return (Build n v a);
     sheets_values_get := λ _ _, Return {| Sheets.values := Some sample_grid |};
     sheets_get := λ _ _, Return no_spreadsheet;
     drive_files_list := λ _ _, Return no_files |}.

(** A world whose provider refuses every request. *)
Definition world_provider_down : World :=
  {| token_json := Some (Return fresh_creds);
     credentials_json := false;
     GOOGLE_SHEETS_API_KEY := None;
     refresh := λ _, Return fresh_creds;
     run_local_server := Return fresh_creds;
     write_token := λ _, Return ();
     build := λ n v a, Return (Build n v a);
     sheets_values_get := λ _ _, Raise (Exn "HttpError" "503 backend error");
     sheets_get := λ _ _, Raise (Exn "HttpError" "503 backend error");
     drive_files_list := λ _ _, Raise (Exn "HttpError" "503 backend error") |}.

(** A spreadsheet whose only tab comes without [index]. *)
Definition tab_without_index : Sheets.sheet :=
  {| Sheets.properties := Some
       {| Sheets.sheetId := Some (VInt 0);
          Sheets.title := Some (VStr "Sheet1");
          Sheets.index := None;
          Sheets.sheetType := None;
          Sheets.gridProperties := None |} |}.

Definition spreadsheet_without_index : Sheets.spreadsheet :=
  {| Sheets.sp_properties := None; Sheets.sheets := Some [tab_without_index] |}.

Definition world_tab_without_index : World :=
  {| token_json := Some (Return fresh_creds);
     credentials_json := false;
     GOOGLE_SHEETS_API_KEY := None;
     refresh := λ _, Return fresh_creds;
     run_local_server := Return fresh_creds;
     write_token := λ _, Return ();
     build := λ n v a, Return (Build n v a);
     sheets_values_get := λ _ _, Return {| Sheets.values := Some sample_grid |};
     sheets_get := λ _ _, Return spreadsheet_without_index;
     drive_files_list := λ _ _, Return no_files |}.

(** The default the catalog advertises for a property of a tool, if any. *)
Definition advertised_default (tool : Tool) (key : string) : option pyval :=
  match inputSchema tool with
  | VDict schema =>
      match field "properties" schema with
      | Some (VDict properties) =>
          match field key properties with
          | Some (VDict property) => field "default" property
          | _ => None
          end
      | _ => None
      end
  | _ => None
  end.

(** The call of the authenticator that [ev] records raised [e]. *)
Definition raised_by (w : World) (ev : event) (e : exn) : Prop :=
  match ev with
  | EvLoadToken => token_json w = Some (Raise e)
  | EvRefresh c => refresh w c = Raise e
  | EvRunLocalServer => run_local_server w = Raise e
  | EvWriteToken c => write_token w c = Raise e
  | EvBuild serviceName version a => build w serviceName version a = Raise e
  | _ => False
  end.

(** The call of the authenticator that [ev] records returned. *)
Definition returned_by (w : World) (ev : event) : Prop :=
  match ev with
  | EvLoadToken => ∃ c, token_json w = Some (Return c)
  | EvRefresh c => ∃ c', refresh w c = Return c'
  | EvRunLocalServer => ∃ c, run_local_server w = Return c
  | EvWriteToken c => write_token w c = Return ()
  | EvBuild serviceName version a => ∃ h, build w serviceName version a = Return h
  | _ => True
  end.

(** ** Running methods *)

Ltac unfold_M :=
  unfold build_service in *;
  unfold mbind, mret, M_bind, M_ret, result_bind, result_ret,
    lift, call, raise, try_except, get_self, set_sheets_service,
    set_drive_service in *.

(** ** The tool catalog *)

(** C3. [handle_list_tools] returns exactly 5 descriptors when
    [drive_service] is null and exactly 7 otherwise; the 2 extra ones follow
    the 5 and are named [list_spreadsheets] and
    [search_spreadsheets_by_name]. *)
Theorem handle_list_tools_catalog (self : server) :
  match drive_service self with
  | None => length (handle_list_tools self) = 5%nat
  | Some _ =>
      length (handle_list_tools self) = 7%nat ∧
      ∃ extra,
        handle_list_tools self
          = handle_list_tools {| sheets_service := sheets_service self;
                                 drive_service := None |} ++ extra ∧
        tool_name <$> extra = ["list_spreadsheets"; "search_spreadsheets_by_name"]
  end.
Proof.
  unfold handle_list_tools. destruct (drive_service self) as [drive|]; simpl.
  - split; [reflexivity|]. exists drive_tools. split; reflexivity.
  - reflexivity.
Qed.

(** ** The Drive operations without a Drive service *)

Lemma list_spreadsheets_without_drive w arguments self :
  drive_service self = None →
  _list_spreadsheets w arguments self
    = (Return [text_content (json_dumps (error_envelope
         "Drive API not available. OAuth authentication required to list spreadsheets.") 2)],
       self, []).
Proof. intros H. unfold _list_spreadsheets. unfold_M. by rewrite H. Qed.

Lemma search_spreadsheets_without_drive w arguments self :
  drive_service self = None →
  _search_spreadsheets_by_name w arguments self
    = (Return [text_content (json_dumps (error_envelope
         "Drive API not available. OAuth authentication required to search spreadsheets.") 2)],
       self, []).
Proof. intros H. unfold _search_spreadsheets_by_name. unfold_M. by rewrite H. Qed.

(** C8. With [drive_service] null, [list_spreadsheets] and
    [search_spreadsheets_by_name] return the error envelope that says OAuth
    authentication is required, and call nothing outside the process: the
    trace is empty.  The same holds through the dispatcher once the Sheets
    service exists. *)
Theorem drive_operations_require_oauth (w : World)
    (arguments : option (gmap string pyval)) (self : server)
    (Hdrive : drive_service self = None) :
  _list_spreadsheets w arguments self
    = (Return [text_content (json_dumps (error_envelope
         "Drive API not available. OAuth authentication required to list spreadsheets.") 2)],
       self, []) ∧
  _search_spreadsheets_by_name w arguments self
    = (Return [text_content (json_dumps (error_envelope
         "Drive API not available. OAuth authentication required to search spreadsheets.") 2)],
       self, []) ∧
  (is_Some (sheets_service self) →
   handle_call_tool w "list_spreadsheets" arguments self
     = _list_spreadsheets w arguments self ∧
   handle_call_tool w "search_spreadsheets_by_name" arguments self
     = _search_spreadsheets_by_name w arguments self).
Proof.
  split; [by apply list_spreadsheets_without_drive|].
  split; [by apply search_spreadsheets_without_drive|].
  intros [h Hh]. unfold handle_call_tool. unfold_M. rewrite Hh. simpl.
  by rewrite (list_spreadsheets_without_drive _ _ _ Hdrive),
    (search_spreadsheets_without_drive _ _ _ Hdrive).
Qed.

Lemma drive_operations_require_oauth_witness :
  drive_service server_api_key = None ∧
  (handle_call_tool world_api_key "list_spreadsheets" (Some ∅) server_api_key).2 = [] ∧
  (handle_call_tool world_api_key "search_spreadsheets_by_name" (Some ∅) server_api_key).2 = [].
Proof.
  split; [reflexivity|].
  destruct (drive_operations_require_oauth world_api_key (Some ∅) server_api_key eq_refl)
    as (Hlist & Hsearch & Hcall).
  destruct (Hcall (ex_intro _ key_sheets eq_refl)) as [-> ->].
  rewrite Hlist, Hsearch. split; reflexivity.
Defined.

(** ** The shape of serialised objects *)

Lemma json_dumps_object_head kv d n :
  ∃ rest, json_dumps (VDict (kv :: d)) n = String "{" rest.
Proof. unfold json_dumps. simpl. eauto. Qed.

Lemma success_is_not_error payload message :
  json_dumps (VDict (("status", VStr "success") :: payload)) 2
    ≠ json_dumps (error_envelope message) 2.
Proof.
  unfold json_dumps, error_envelope. destruct payload; cbn; intros H; discriminate H.
Qed.

Lemma plain_error_is_not_an_envelope message : ¬ envelope ("Error: " +:+ message).
Proof. intros H. inversion H. Qed.

Arguments json_dumps : simpl never.
#[local] Opaque json_dumps.

(** ** Exceptions the operations raise themselves *)

Lemma is_Exception_AttributeError v attr : is_Exception (AttributeError v attr) = true.
Proof. reflexivity. Qed.

Lemma is_Exception_KeyError key : is_Exception (KeyError key) = true.
Proof. reflexivity. Qed.

Lemma is_Exception_ValueError msg : is_Exception (ValueError msg) = true.
Proof. reflexivity. Qed.

Lemma mapM_result_cons {A B} (f : A → result B) (x : A) (l : list A) :
  mapM f (x :: l)
  = match f x with
    | Return y => match mapM f l with
                  | Return l' => Return (y :: l')
                  | Raise e => Raise e
                  end
    | Raise e => Raise e
    end.
Proof. reflexivity. Qed.

Lemma mapM_raises_Exception {A B} (f : A → result B) (l : list A) (e : exn) :
  (∀ x e', f x = Raise e' → is_Exception e' = true) →
  mapM f l = Raise e → is_Exception e = true.
Proof.
  intros Hf. induction l as [|x l IH]; [discriminate|].
  rewrite mapM_result_cons. destruct (f x) as [y|e'] eqn:Hx.
  - destruct (mapM f l); [discriminate|]. intros [= ->]. by apply IH.
  - intros [= ->]. by eapply Hf.
Qed.

Lemma subscript_raises_Exception {A} (field : option A) (key : string) (e : exn) :
  subscript field key = Raise e → is_Exception e = true.
Proof. destruct field; [discriminate|]. by intros [= <-]. Qed.

Lemma spreadsheets_raises_Exception self e :
  spreadsheets self = Raise e → is_Exception e = true.
Proof. unfold spreadsheets. destruct (sheets_service self); [discriminate|]. by intros [= <-]. Qed.

Ltac own_raise H :=
  unfold subscript, mbind, mret, result_bind, result_ret in H;
  repeat match type of H with
  | context [match ?x with _ => _ end] =>
      match type of x with
      | option _ => destruct x; cbn beta iota zeta in H
      end
  end;
  first [discriminate H | injection H as <-; reflexivity].

Lemma sheet_metadata_raises_Exception sheet e :
  sheet_metadata sheet = Raise e → is_Exception e = true.
Proof. unfold sheet_metadata. intros H. own_raise H. Qed.

Lemma sheet_summary_raises_Exception sheet e :
  sheet_summary sheet = Raise e → is_Exception e = true.
Proof. unfold sheet_summary. intros H. own_raise H. Qed.

Lemma scan_row_raises_Exception search_term row_idx cells col acc e :
  for_enumerate
    (λ matches col_idx cell,
       needle ← lower_method search_term;
       if str_contains needle (lower (py_str cell))
       then mret (matches ++ [match_entry row_idx col_idx cell cells])
       else mret matches)
    col cells acc = Raise e →
  is_Exception e = true.
Proof.
  generalize cells at 1 as row. intros row.
  revert col acc. induction cells as [|cell cells IH]; intros col acc; simpl; [discriminate|].
  unfold mbind, result_bind.
  destruct search_term; simpl; try (intros [= <-]; reflexivity).
  destruct (str_contains _ _); simpl; apply IH.
Qed.

Lemma scan_values_raises_Exception search_term rows e :
  scan_values search_term rows = Raise e → is_Exception e = true.
Proof.
  unfold scan_values. generalize (@nil pyval) as acc, 0 as row_idx.
  induction rows as [|row rows IH]; intros acc row_idx; simpl; [discriminate|].
  destruct (scan_row search_term acc row_idx row) as [acc'|e'] eqn:Hrow.
  - apply IH.
  - intros [= <-]. unfold scan_row in Hrow. by eapply scan_row_raises_Exception.
Qed.

(** ** The operations never assign to [self] and never authenticate *)

Ltac step_op :=
  rewrite ?is_Exception_AttributeError, ?is_Exception_KeyError;
  match goal with
  | |- context [match ?x with _ => _ end] =>
      match type of x with
      | option _ => destruct x eqn:?
      | result _ => destruct x eqn:?
      | list _ => destruct x eqn:?
      | bool => destruct x eqn:?
      end; cbn beta iota zeta
  end.

(** An exception of the operation's own making is an [Exception]. *)
Ltac own_exception :=
  match goal with
  | He : is_Exception ?e = false, Hm : mapM _ _ = Raise ?e |- _ =>
      exfalso; apply mapM_raises_Exception in Hm;
      [ congruence
      | first [ exact sheet_metadata_raises_Exception
              | exact sheet_summary_raises_Exception
              | let H := fresh in intros ? ? H; own_raise H ] ]
  | He : is_Exception ?e = false, Hm : for_enumerate _ _ _ _ = Raise ?e |- _ =>
      exfalso; apply scan_values_raises_Exception in Hm; congruence
  | He : is_Exception ?e = false, Hm : spreadsheets _ = Raise ?e |- _ =>
      exfalso; apply spreadsheets_raises_Exception in Hm; congruence
  | He : is_Exception ?e = false, Hm : arguments_get _ _ _ = Raise ?e |- _ =>
      exfalso; unfold arguments_get in Hm; congruence
  end.

Ltac finish_op :=
  first
  [ own_exception
  | eexists _, _; split; [reflexivity|]; cbn [app];
    split; [repeat constructor|];
    split; [cbn [length]; lia|];
    split; [repeat constructor|];
    cbn beta iota;
    lazymatch goal with
    | |- ∃ t, _ => eexists; split; [reflexivity|];
                   let Hm := fresh in intros Hm; first [discriminate Hm | constructor]
    | |- _ =>
        rewrite ?is_Exception_AttributeError;
        first [ split; reflexivity
              | match goal with
                | He : is_Exception ?e = false |- _ => rewrite He; assumption
                end ]
    end ].

Ltac run_op :=
  intros self; unfold arguments_get, scan_values; unfold_M;
  cbn beta iota zeta; repeat step_op; finish_op.

Lemma list_spreadsheets_well_behaved w arguments :
  well_behaved w (_list_spreadsheets w arguments) (bool_decide (is_Some arguments)).
Proof. unfold _list_spreadsheets. destruct arguments as [d|]; run_op. Qed.

Lemma search_spreadsheets_well_behaved w arguments :
  well_behaved w (_search_spreadsheets_by_name w arguments)
    (bool_decide (is_Some arguments)).
Proof. unfold _search_spreadsheets_by_name. destruct arguments as [d|]; run_op. Qed.

Lemma read_sheet_data_well_behaved w arguments :
  well_behaved w (_read_sheet_data w arguments) (bool_decide (is_Some arguments)).
Proof. unfold _read_sheet_data. destruct arguments as [d|]; run_op. Qed.

Lemma get_sheet_metadata_well_behaved w arguments :
  well_behaved w (_get_sheet_metadata w arguments) (bool_decide (is_Some arguments)).
Proof. unfold _get_sheet_metadata. destruct arguments as [d|]; run_op. Qed.

Lemma list_sheets_well_behaved w arguments :
  well_behaved w (_list_sheets w arguments) (bool_decide (is_Some arguments)).
Proof. unfold _list_sheets. destruct arguments as [d|]; run_op. Qed.

Lemma search_sheet_data_well_behaved w arguments :
  well_behaved w (_search_sheet_data w arguments) (bool_decide (is_Some arguments)).
Proof. unfold _search_sheet_data. destruct arguments as [d|]; run_op. Qed.

Lemma get_range_data_well_behaved w arguments :
  well_behaved w (_get_range_data w arguments) (bool_decide (is_Some arguments)).
Proof. unfold _get_range_data. destruct arguments as [d|]; run_op. Qed.

(** ** The handler around the dispatch *)

Lemma answered_weaken w r tr (P Q : Prop) :
  (Q → P) → answered w r tr P → answered w r tr Q.
Proof.
  intros HQP. destruct r as [content|e]; [|done].
  intros (t & Ht & Henv). exists t. split; [done|]. auto.
Qed.

(** What [except Exception as e: return [TextContent(text=f"Error: ...")]]
    makes of an operation. *)
Lemma caught_well_behaved w (op : M (list TextContent)) (mapping : bool) (self : server) :
  well_behaved w op mapping →
  ∃ r tr,
    try_except op (λ e, mret [text_content ("Error: " +:+ exn_str e)]) self
      = (r, self, tr) ∧
    Forall (λ ev, is_auth_event ev = false) tr ∧
    (length tr ≤ 1)%nat ∧
    Forall (λ ev, is_remote_call ev = true) tr ∧
    answered w r tr (mapping = true).
Proof.
  intros Hop. destruct (Hop self) as (r & tr & Heq & Hauth & Hlen & Hremote & Hr).
  unfold try_except. rewrite Heq. destruct r as [content|e].
  - exists (Return content), tr. done.
  - destruct (is_Exception e) eqn:He.
    + destruct Hr as [Hm ->].
      exists (Return [text_content ("Error: " +:+ exn_str e)]), [].
      split; [done|]. split; [done|]. split; [done|]. split; [done|].
      eexists. split; [reflexivity|]. intros Hm'. congruence.
    + exists (Raise e), tr. done.
Qed.

Lemma unknown_tool_raises name self :
  try_except (raise (ValueError ("Unknown tool: " +:+ name)))
    (λ e, mret [text_content ("Error: " +:+ exn_str e)]) self
    = (Return [text_content ("Error: Unknown tool: " +:+ name)], self, []).
Proof. reflexivity. Qed.

Lemma not_in_tool_table name :
  name ∉ tool_table ↔
  String.eqb name "list_spreadsheets" = false ∧
  String.eqb name "search_spreadsheets_by_name" = false ∧
  String.eqb name "read_sheet_data" = false ∧
  String.eqb name "get_sheet_metadata" = false ∧
  String.eqb name "list_sheets" = false ∧
  String.eqb name "search_sheet_data" = false ∧
  String.eqb name "get_range_data" = false.
Proof.
  unfold tool_table. rewrite !not_elem_of_cons, !String.eqb_neq.
  pose proof (not_elem_of_nil name). tauto.
Qed.

(** The [try] of [handle_call_tool], on any server object. *)
Lemma dispatch_answered w name arguments self :
  ∃ r tr,
    try_except
      (if String.eqb name "list_spreadsheets" then _list_spreadsheets w arguments
       else if String.eqb name "search_spreadsheets_by_name" then
         _search_spreadsheets_by_name w arguments
       else if String.eqb name "read_sheet_data" then _read_sheet_data w arguments
       else if String.eqb name "get_sheet_metadata" then _get_sheet_metadata w arguments
       else if String.eqb name "list_sheets" then _list_sheets w arguments
       else if String.eqb name "search_sheet_data" then _search_sheet_data w arguments
       else if String.eqb name "get_range_data" then _get_range_data w arguments
       else raise (ValueError ("Unknown tool: " +:+ name)))
      (λ e, mret [text_content ("Error: " +:+ exn_str e)]) self
      = (r, self, tr) ∧
    Forall (λ ev, is_auth_event ev = false) tr ∧
    (length tr ≤ 1)%nat ∧
    Forall (λ ev, is_remote_call ev = true) tr ∧
    answered w r tr (is_Some arguments ∧ name ∈ tool_table).
Proof.
  assert (∀ op,
    well_behaved w op (bool_decide (is_Some arguments)) →
    ∃ r tr,
      try_except op (λ e, mret [text_content ("Error: " +:+ exn_str e)]) self
        = (r, self, tr) ∧
      Forall (λ ev, is_auth_event ev = false) tr ∧
      (length tr ≤ 1)%nat ∧
      Forall (λ ev, is_remote_call ev = true) tr ∧
      answered w r tr (is_Some arguments ∧ name ∈ tool_table)) as Hcaught.
  { intros op Hop.
    destruct (caught_well_behaved w op _ self Hop) as (r & tr & Heq & ? & ? & ? & Hr).
    exists r, tr. repeat (split; [done|]).
    eapply answered_weaken; [|exact Hr]. intros [Harg _]. by apply bool_decide_eq_true. }
  destruct (String.eqb name "list_spreadsheets") eqn:E1;
    [apply Hcaught, list_spreadsheets_well_behaved|].
  destruct (String.eqb name "search_spreadsheets_by_name") eqn:E2;
    [apply Hcaught, search_spreadsheets_well_behaved|].
  destruct (String.eqb name "read_sheet_data") eqn:E3;
    [apply Hcaught, read_sheet_data_well_behaved|].
  destruct (String.eqb name "get_sheet_metadata") eqn:E4;
    [apply Hcaught, get_sheet_metadata_well_behaved|].
  destruct (String.eqb name "list_sheets") eqn:E5;
    [apply Hcaught, list_sheets_well_behaved|].
  destruct (String.eqb name "search_sheet_data") eqn:E6;
    [apply Hcaught, search_sheet_data_well_behaved|].
  destruct (String.eqb name "get_range_data") eqn:E7;
    [apply Hcaught, get_range_data_well_behaved|].
  exists (Return [text_content ("Error: Unknown tool: " +:+ name)]), [].
  split; [apply unknown_tool_raises|]. split; [constructor|].
  split; [simpl; lia|]. split; [constructor|].
  eexists. split; [reflexivity|].
  intros [_ Hin]. exfalso. revert Hin. by apply not_in_tool_table.
Qed.

(** On a server whose [sheets_service] is set a call is its dispatch. *)
Lemma handle_call_tool_established w name arguments self :
  is_Some (sheets_service self) →
  ∃ r tr,
    handle_call_tool w name arguments self = (r, self, tr) ∧
    Forall (λ ev, is_auth_event ev = false) tr ∧
    (length tr ≤ 1)%nat ∧
    Forall (λ ev, is_remote_call ev = true) tr ∧
    answered w r tr (is_Some arguments ∧ name ∈ tool_table).
Proof.
  intros [h Hh].
  destruct (dispatch_answered w name arguments self) as (r & tr & Heq & Hrest).
  exists r, tr. split; [|done].
  unfold handle_call_tool, mbind, M_bind, get_self, mret, M_ret in *. rewrite Hh.
  cbn beta iota zeta. by rewrite Heq.
Qed.

(** C1, at the input where it fails.  On a server whose start-up
    authentication did not succeed and that has no credential source, the
    lazy authentication of [handle_call_tool] raises before the [try] is
    entered, and the exception leaves the handler, whatever the tool and
    the arguments. *)
Theorem handle_call_tool_authentication_failure_escapes
    (name : string) (arguments : option (gmap string pyval)) :
  main_pre_authenticate world_without_sources init = (Return (), init, [EvAuthenticate]) ∧
  handle_call_tool world_without_sources name arguments init
    = (Raise (ValueError missing_credentials), init, [EvAuthenticate]).
Proof. split; reflexivity. Qed.

(** ** Unknown tools *)

(** C5, amended.  For a name outside the table, once the Sheets service
    exists or the lazy authentication succeeds, [handle_call_tool] raises
    nothing and returns one text content, the plain text
    [Error: Unknown tool: <name>]; on a server that has its Sheets service
    it does so without a call to the outside and without a change of
    [self]. *)
Theorem unknown_tool_reply (w : World) (name : string)
    (arguments : option (gmap string pyval)) (self : server)
    (Hname : name ∉ tool_table)
    (Hauth : match sheets_service self with
             | Some _ => True
             | None => (authenticate_google_services w self).1.1 = Return ()
             end) :
  (handle_call_tool w name arguments self).1.1
    = Return [text_content ("Error: Unknown tool: " +:+ name)] ∧
  (is_Some (sheets_service self) →
   handle_call_tool w name arguments self
     = (Return [text_content ("Error: Unknown tool: " +:+ name)], self, [])).
Proof.
  apply not_in_tool_table in Hname as (E1 & E2 & E3 & E4 & E5 & E6 & E7).
  unfold handle_call_tool. rewrite E1, E2, E3, E4, E5, E6, E7.
  unfold mbind, M_bind, get_self.
  destruct (sheets_service self) as [h|] eqn:Hs.
  - split; [reflexivity|]. intros _. reflexivity.
  - destruct (authenticate_google_services w self) as [[r self1] tr1].
    simpl in Hauth. subst r. split; [reflexivity|]. intros [? ?]. discriminate.
Qed.

Lemma unknown_tool_reply_witness :
  handle_call_tool world_api_key "delete_sheet" (Some ∅) server_api_key
    = (Return [text_content "Error: Unknown tool: delete_sheet"], server_api_key, []).
Proof.
  refine (proj2 (unknown_tool_reply world_api_key "delete_sheet" (Some ∅) server_api_key
                   _ I) (ex_intro _ key_sheets eq_refl)).
  apply not_in_tool_table. repeat split; reflexivity.
Defined.

(** C5, at an input where it fails: the reply to an unknown tool is not an
    envelope, so it is not an error envelope with the message
    [Unknown tool: delete_sheet]. *)
Lemma unknown_tool_reply_is_not_an_envelope :
  ∃ content,
    handle_call_tool world_api_key "delete_sheet" (Some ∅) server_api_key
      = (Return [content], server_api_key, []) ∧
    ¬ envelope (text content) ∧
    text content ≠ json_dumps (error_envelope "Unknown tool: delete_sheet") 2.
Proof.
  exists (text_content "Error: Unknown tool: delete_sheet").
  split; [reflexivity|]. split.
  - apply (plain_error_is_not_an_envelope "Unknown tool: delete_sheet").
  - intros H. apply (plain_error_is_not_an_envelope "Unknown tool: delete_sheet").
    change (envelope (text (text_content "Error: Unknown tool: delete_sheet"))).
    rewrite H. constructor.
Qed.

(** ** The authenticator, source by source *)

Ltac run_auth :=
  unfold authenticate_google_services; unfold_M; cbn beta iota zeta.

Ltac use_world :=
  repeat (match goal with
          | H : ?l = _ |- context [?l] => rewrite H
          end; simpl).

Lemma authenticate_cached w self c hs hd :
  token_json w = Some (Return c) →
  valid c = true →
  build w "sheets" "v4" (WithCredentials c) = Return hs →
  build w "drive" "v3" (WithCredentials c) = Return hd →
  authenticate_google_services w self
    = (Return (), {| sheets_service := Some hs; drive_service := Some hd |},
       [EvAuthenticate; EvLoadToken;
        EvBuild "sheets" "v4" (WithCredentials c); EvBuild "drive" "v3" (WithCredentials c)]).
Proof. intros Ht Hv Hs Hd. run_auth. by use_world. Qed.

Lemma authenticate_refresh_failure w self c e :
  token_json w = Some (Return c) →
  valid c = false →
  refreshable c = true →
  refresh w c = Raise e →
  authenticate_google_services w self
    = (Raise e, self, [EvAuthenticate; EvLoadToken; EvRefresh c]).
Proof. intros Ht Hv Hr He. run_auth. by use_world. Qed.

Lemma authenticate_refresh_success w self c c' hs hd :
  token_json w = Some (Return c) →
  valid c = false →
  refreshable c = true →
  refresh w c = Return c' →
  write_token w c' = Return () →
  build w "sheets" "v4" (WithCredentials c') = Return hs →
  build w "drive" "v3" (WithCredentials c') = Return hd →
  authenticate_google_services w self
    = (Return (), {| sheets_service := Some hs; drive_service := Some hd |},
       [EvAuthenticate; EvLoadToken; EvRefresh c; EvWriteToken c';
        EvBuild "sheets" "v4" (WithCredentials c'); EvBuild "drive" "v3" (WithCredentials c')]).
Proof. intros Ht Hv Hr Hc Hw Hs Hd. run_auth. by use_world. Qed.

Lemma authenticate_interactive w self c' hs hd :
  stored_unusable w →
  credentials_json w = true →
  run_local_server w = Return c' →
  write_token w c' = Return () →
  build w "sheets" "v4" (WithCredentials c') = Return hs →
  build w "drive" "v3" (WithCredentials c') = Return hd →
  authenticate_google_services w self
    = (Return (), {| sheets_service := Some hs; drive_service := Some hd |},
       [EvAuthenticate] ++ load_trace w ++
       [EvRunLocalServer; EvWriteToken c';
        EvBuild "sheets" "v4" (WithCredentials c'); EvBuild "drive" "v3" (WithCredentials c')]).
Proof.
  intros [Ht|(c & Ht & Hv & Hr)] Hj Hc Hw Hs Hd; run_auth; unfold load_trace;
    by use_world.
Qed.

Lemma authenticate_api_key w self api_key h :
  stored_unusable w →
  credentials_json w = false →
  GOOGLE_SHEETS_API_KEY w = Some api_key →
  api_key ≠ EmptyString →
  build w "sheets" "v4" (WithDeveloperKey api_key) = Return h →
  authenticate_google_services w self
    = (Return (), {| sheets_service := Some h; drive_service := drive_service self |},
       [EvAuthenticate] ++ load_trace w ++ [EvBuild "sheets" "v4" (WithDeveloperKey api_key)]).
Proof.
  intros Hst Hj Hk Hne Hb. apply String.eqb_neq in Hne.
  destruct Hst as [Ht|(c & Ht & Hv & Hr)]; run_auth; unfold load_trace;
    by use_world.
Qed.

Lemma authenticate_no_source w self :
  stored_unusable w →
  credentials_json w = false →
  GOOGLE_SHEETS_API_KEY w = None ∨ GOOGLE_SHEETS_API_KEY w = Some EmptyString →
  authenticate_google_services w self
    = (Raise (ValueError missing_credentials), self, [EvAuthenticate] ++ load_trace w).
Proof.
  intros Hst Hj Hk.
  destruct Hst as [Ht|(c & Ht & Hv & Hr)], Hk as [Hk|Hk]; run_auth; unfold load_trace;
    by use_world.
Qed.

(** A run of the authenticator that returns after building the Sheets
    service from the API key has left [drive_service] alone. *)
Lemma authenticate_api_key_leaves_drive w self self1 tr api_key :
  authenticate_google_services w self = (Return (), self1, tr) →
  EvBuild "sheets" "v4" (WithDeveloperKey api_key) ∈ tr →
  is_Some (sheets_service self1) ∧ drive_service self1 = drive_service self.
Proof.
  run_auth. intros Hrun Hin.
  repeat match type of Hrun with
  | context [match ?x with _ => _ end] =>
      match type of x with
      | option _ => destruct x
      | result _ => destruct x
      | bool => destruct x
      end; cbn beta iota zeta in Hrun
  end;
  try discriminate Hrun; simplify_eq;
  repeat (apply elem_of_cons in Hin as [Hin|Hin]; [try discriminate Hin|]);
  try (by apply elem_of_nil in Hin); simpl; eauto.
Qed.

Lemma authenticate_load_failure w self e :
  token_json w = Some (Raise e) →
  authenticate_google_services w self = (Raise e, self, [EvAuthenticate; EvLoadToken]).
Proof. intros Ht. run_auth. by use_world. Qed.

Lemma authenticate_interactive_failure w self e :
  stored_unusable w →
  credentials_json w = true →
  run_local_server w = Raise e →
  authenticate_google_services w self
    = (Raise e, self, [EvAuthenticate] ++ load_trace w ++ [EvRunLocalServer]).
Proof.
  intros [Ht|(c & Ht & Hv & Hr)] Hj He; run_auth; unfold load_trace; by use_world.
Qed.

Lemma authenticate_api_key_failure w self api_key e :
  stored_unusable w →
  credentials_json w = false →
  GOOGLE_SHEETS_API_KEY w = Some api_key →
  api_key ≠ EmptyString →
  build w "sheets" "v4" (WithDeveloperKey api_key) = Raise e →
  authenticate_google_services w self
    = (Raise e, self,
       [EvAuthenticate] ++ load_trace w ++ [EvBuild "sheets" "v4" (WithDeveloperKey api_key)]).
Proof.
  intros Hst Hj Hk Hne Hb. apply String.eqb_neq in Hne.
  destruct Hst as [Ht|(c & Ht & Hv & Hr)]; run_auth; unfold load_trace;
    by use_world.
Qed.

(** Every way through the authenticator, with what the world answered on
    the way as hypotheses. *)
Ltac auth_run Hrun :=
  unfold authenticate_google_services in Hrun; unfold_M;
  cbn beta iota zeta in Hrun;
  repeat match type of Hrun with
  | context [match ?x with _ => _ end] =>
      match type of x with
      | option _ => destruct x eqn:?
      | result _ => destruct x eqn:?
      | bool => destruct x eqn:?
      end; cbn beta iota zeta in Hrun
  end;
  try discriminate Hrun; simplify_eq;
  repeat match goal with
  | H : negb _ = true |- _ => apply negb_true_iff in H
  | H : negb _ = false |- _ => apply negb_false_iff in H
  | H : String.eqb _ _ = false |- _ => apply String.eqb_neq in H
  | H : String.eqb _ _ = true |- _ => apply String.eqb_eq in H
  end.

Ltac in_trace H :=
  simpl in H;
  repeat (apply elem_of_cons in H as [H|H]; [try discriminate H|]);
  try (by apply elem_of_nil in H); simplify_eq.

(** A source appears in the trace of a run only under its condition,
    whatever the calls of the run answered. *)
Lemma authenticate_sources_only_when w self r self1 tr :
  authenticate_google_services w self = (r, self1, tr) →
  (∀ c, EvRefresh c ∈ tr →
     token_json w = Some (Return c) ∧ valid c = false ∧ refreshable c = true) ∧
  (EvRunLocalServer ∈ tr → stored_unusable w ∧ credentials_json w = true) ∧
  (∀ api_key, EvBuild "sheets" "v4" (WithDeveloperKey api_key) ∈ tr →
     stored_unusable w ∧ credentials_json w = false ∧
     GOOGLE_SHEETS_API_KEY w = Some api_key ∧ api_key ≠ EmptyString).
Proof.
  intros Hrun. auth_run Hrun; (split; [|split]);
    intros; match goal with H : _ ∈ _ |- _ => in_trace H end;
    unfold stored_unusable; eauto 10.
Qed.

(** A run returns only if every call it made returned. *)
Lemma authenticate_returns_after_success w self self1 tr :
  authenticate_google_services w self = (Return (), self1, tr) →
  Forall (returned_by w) tr.
Proof.
  intros Hrun. auth_run Hrun; simpl; repeat constructor; simpl;
    repeat match goal with u : () |- _ => destruct u end; eauto.
Qed.

(** A run that raises ends at the call that raised, or had no source. *)
Lemma authenticate_stops_at_failure w self e self1 tr :
  authenticate_google_services w self = (Raise e, self1, tr) →
  (e = ValueError missing_credentials ∧
   stored_unusable w ∧ credentials_json w = false ∧
   (GOOGLE_SHEETS_API_KEY w = None ∨ GOOGLE_SHEETS_API_KEY w = Some EmptyString) ∧
   self1 = self ∧ tr = [EvAuthenticate] ++ load_trace w) ∨
  (∃ ev, last tr = Some ev ∧ raised_by w ev e).
Proof.
  intros Hrun. auth_run Hrun; unfold load_trace, stored_unusable;
    first [ right; eexists; split; [reflexivity|]; simpl; done
          | left; use_world; repeat split; eauto 10 ].
Qed.

(** C2, amended.  The authenticator tries its credential sources in order
    and the first that applies decides: a valid stored credential is used
    as it is; a stored credential that is expired and has a refresh token
    is refreshed, and a refresh that fails ends the authentication with
    that failure, the interactive flow and the API key untried; without a
    usable stored credential the interactive flow runs if
    [credentials.json] exists, and the API key is used only if it does not;
    under the API key the Sheets service alone is built and
    [drive_service] is left as it was; with no source at all the
    authentication fails.  A source is tried only under its condition,
    whatever the calls of the run answer: the refresh only on a stored
    credential that is invalid and refreshable, the interactive flow only
    without a usable stored credential and with [credentials.json], the API
    key only without a usable stored credential, without
    [credentials.json] and with a non-empty key.  Nothing is tried after a
    failure: a [token.json] that does not load, a refused refresh,
    a failed interactive flow, a failed write of the token or a failed
    build ends the run with that failure as its last call, and a run
    returns only if every call it made returned. *)
Theorem authenticate_first_match (w : World) (self : server) :
  (∀ c hs hd,
     token_json w = Some (Return c) → valid c = true →
     build w "sheets" "v4" (WithCredentials c) = Return hs →
     build w "drive" "v3" (WithCredentials c) = Return hd →
     authenticate_google_services w self
       = (Return (), {| sheets_service := Some hs; drive_service := Some hd |},
          [EvAuthenticate; EvLoadToken;
           EvBuild "sheets" "v4" (WithCredentials c);
           EvBuild "drive" "v3" (WithCredentials c)])) ∧
  (∀ c e,
     token_json w = Some (Return c) → valid c = false → refreshable c = true →
     refresh w c = Raise e →
     authenticate_google_services w self
       = (Raise e, self, [EvAuthenticate; EvLoadToken; EvRefresh c])) ∧
  (∀ c c' hs hd,
     token_json w = Some (Return c) → valid c = false → refreshable c = true →
     refresh w c = Return c' → write_token w c' = Return () →
     build w "sheets" "v4" (WithCredentials c') = Return hs →
     build w "drive" "v3" (WithCredentials c') = Return hd →
     authenticate_google_services w self
       = (Return (), {| sheets_service := Some hs; drive_service := Some hd |},
          [EvAuthenticate; EvLoadToken; EvRefresh c; EvWriteToken c';
           EvBuild "sheets" "v4" (WithCredentials c');
           EvBuild "drive" "v3" (WithCredentials c')])) ∧
  (∀ c' hs hd,
     stored_unusable w → credentials_json w = true →
     run_local_server w = Return c' → write_token w c' = Return () →
     build w "sheets" "v4" (WithCredentials c') = Return hs →
     build w "drive" "v3" (WithCredentials c') = Return hd →
     authenticate_google_services w self
       = (Return (), {| sheets_service := Some hs; drive_service := Some hd |},
          [EvAuthenticate] ++ load_trace w ++
          [EvRunLocalServer; EvWriteToken c';
           EvBuild "sheets" "v4" (WithCredentials c');
           EvBuild "drive" "v3" (WithCredentials c')])) ∧
  (∀ api_key h,
     stored_unusable w → credentials_json w = false →
     GOOGLE_SHEETS_API_KEY w = Some api_key → api_key ≠ EmptyString →
     build w "sheets" "v4" (WithDeveloperKey api_key) = Return h →
     authenticate_google_services w self
       = (Return (), {| sheets_service := Some h; drive_service := drive_service self |},
          [EvAuthenticate] ++ load_trace w ++
          [EvBuild "sheets" "v4" (WithDeveloperKey api_key)])) ∧
  (stored_unusable w → credentials_json w = false →
   GOOGLE_SHEETS_API_KEY w = None ∨ GOOGLE_SHEETS_API_KEY w = Some EmptyString →
   authenticate_google_services w self
     = (Raise (ValueError missing_credentials), self, [EvAuthenticate] ++ load_trace w)) ∧
  (∀ e,
     token_json w = Some (Raise e) →
     authenticate_google_services w self = (Raise e, self, [EvAuthenticate; EvLoadToken])) ∧
  (∀ e,
     stored_unusable w → credentials_json w = true →
     run_local_server w = Raise e →
     authenticate_google_services w self
       = (Raise e, self, [EvAuthenticate] ++ load_trace w ++ [EvRunLocalServer])) ∧
  (∀ api_key e,
     stored_unusable w → credentials_json w = false →
     GOOGLE_SHEETS_API_KEY w = Some api_key → api_key ≠ EmptyString →
     build w "sheets" "v4" (WithDeveloperKey api_key) = Raise e →
     authenticate_google_services w self
       = (Raise e, self,
          [EvAuthenticate] ++ load_trace w ++
          [EvBuild "sheets" "v4" (WithDeveloperKey api_key)])) ∧
  (∀ r self1 tr,
     authenticate_google_services w self = (r, self1, tr) →
     (∀ c, EvRefresh c ∈ tr →
        token_json w = Some (Return c) ∧ valid c = false ∧ refreshable c = true) ∧
     (EvRunLocalServer ∈ tr → stored_unusable w ∧ credentials_json w = true) ∧
     (∀ api_key, EvBuild "sheets" "v4" (WithDeveloperKey api_key) ∈ tr →
        stored_unusable w ∧ credentials_json w = false ∧
        GOOGLE_SHEETS_API_KEY w = Some api_key ∧ api_key ≠ EmptyString)) ∧
  (∀ e self1 tr,
     authenticate_google_services w self = (Raise e, self1, tr) →
     (e = ValueError missing_credentials ∧
      stored_unusable w ∧ credentials_json w = false ∧
      (GOOGLE_SHEETS_API_KEY w = None ∨ GOOGLE_SHEETS_API_KEY w = Some EmptyString) ∧
      self1 = self ∧ tr = [EvAuthenticate] ++ load_trace w) ∨
     (∃ ev, last tr = Some ev ∧ raised_by w ev e)) ∧
  (∀ self1 tr,
     authenticate_google_services w self = (Return (), self1, tr) →
     Forall (returned_by w) tr).
Proof.
  split; [|split; [|split; [|split; [|split; [|split; [|split; [|split; [|split;
    [|split; [|split]]]]]]]]]]; intros.
  - by apply authenticate_cached.
  - by apply authenticate_refresh_failure.
  - by apply authenticate_refresh_success.
  - by apply authenticate_interactive.
  - by apply authenticate_api_key.
  - by apply authenticate_no_source.
  - by apply authenticate_load_failure.
  - by apply authenticate_interactive_failure.
  - by apply authenticate_api_key_failure.
  - by eapply authenticate_sources_only_when.
  - by apply authenticate_stops_at_failure.
  - by eapply authenticate_returns_after_success.
Qed.

Lemma authenticate_first_match_witness :
  authenticate_google_services world_refresh_refused init
    = (Raise (Exn "RefreshError" "invalid_grant"), init,
       [EvAuthenticate; EvLoadToken; EvRefresh expired_creds]) ∧
  authenticate_google_services world_api_key init
    = (Return (), server_api_key,
       [EvAuthenticate; EvBuild "sheets" "v4" (WithDeveloperKey "key")]).
Proof.
  split.
  - exact (proj1 (proj2 (authenticate_first_match world_refresh_refused init))
             expired_creds (Exn "RefreshError" "invalid_grant")
             eq_refl eq_refl eq_refl eq_refl).
  - refine (proj1 (proj2 (proj2 (proj2 (proj2 (authenticate_first_match world_api_key init)))))
              "key" key_sheets (or_introl eq_refl) eq_refl eq_refl _ eq_refl).
    discriminate.
Defined.

(** C2, at an input where it fails.  The stored credential is expired and
    has a refresh token, the refresh is refused, there is no
    [credentials.json] and an API key is set: the authentication ends with
    the refresh failure and builds no service, where the claim has it fall
    through to the API key and build the Sheets service. *)
Lemma refresh_failure_does_not_fall_through :
  token_json world_refresh_refused = Some (Return expired_creds) ∧
  valid expired_creds = false ∧
  refreshable expired_creds = true ∧
  credentials_json world_refresh_refused = false ∧
  GOOGLE_SHEETS_API_KEY world_refresh_refused = Some "key" ∧
  authenticate_google_services world_refresh_refused init
    = (Raise (Exn "RefreshError" "invalid_grant"), init,
       [EvAuthenticate; EvLoadToken; EvRefresh expired_creds]) ∧
  ¬ ∃ h tr,
      authenticate_google_services world_refresh_refused init
        = (Return (), {| sheets_service := Some h; drive_service := None |}, tr).
Proof.
  repeat split. intros (h & tr & H). discriminate H.
Qed.

(** ** The process after the Sheets service exists *)

Lemma serve_established calls self :
  is_Some (sheets_service self) →
  ∃ replies tr,
    serve calls self = (replies, self, tr) ∧
    Forall (λ ev, is_auth_event ev = false) tr.
Proof.
  intros Hs. induction calls as [|[[w name] arguments] calls IH].
  - exists [], []. split; [reflexivity|constructor].
  - destruct (handle_call_tool_established w name arguments self Hs)
      as (r & tr1 & Hcall & Htr1 & _).
    destruct IH as (replies & tr2 & Hserve & Htr2).
    exists (r :: replies), (tr1 ++ tr2). simpl.
    rewrite Hcall, Hserve. split; [reflexivity|by apply Forall_app].
Qed.

(** C10.  On a server whose [sheets_service] is set, any sequence of tool
    calls leaves [self] as it was and never enters the authenticator.  So
    after an authentication that returned by the API-key fallback,
    [drive_service] is still null after every later call and the catalog
    has 5 tools. *)
Theorem no_reauthentication_once_primary (self : server)
    (calls : list (World * string * option (gmap string pyval)))
    (Hprimary : is_Some (sheets_service self)) :
  ∃ replies tr,
    serve calls self = (replies, self, tr) ∧
    Forall (λ ev, is_auth_event ev = false) tr ∧
    (EvAuthenticate ∉ tr) ∧
    ∀ w self0 tr0 api_key,
      drive_service self0 = None →
      authenticate_google_services w self0 = (Return (), self, tr0) →
      EvBuild "sheets" "v4" (WithDeveloperKey api_key) ∈ tr0 →
      drive_service self = None ∧ length (handle_list_tools self) = 5%nat.
Proof.
  destruct (serve_established calls self Hprimary) as (replies & tr & Hserve & Htr).
  exists replies, tr. split; [done|]. split; [done|]. split.
  - intros Hin. rewrite Forall_forall in Htr. by specialize (Htr _ Hin).
  - intros w self0 tr0 api_key Hd0 Hauth Hin.
    destruct (authenticate_api_key_leaves_drive _ _ _ _ _ Hauth Hin) as [_ Hd].
    rewrite Hd0 in Hd. split; [done|]. unfold handle_list_tools. by rewrite Hd.
Qed.

Lemma no_reauthentication_once_primary_witness :
  ∃ replies tr,
    serve [(world_oauth, "list_spreadsheets", Some ∅);
           (world_oauth, "read_sheet_data", Some {[ "spreadsheet_id" := VStr "abc" ]});
           (world_without_sources, "no_such_tool", None)] server_api_key
      = (replies, server_api_key, tr) ∧
    (EvAuthenticate ∉ tr) ∧
    drive_service server_api_key = None ∧
    length (handle_list_tools server_api_key) = 5%nat.
Proof.
  destruct (no_reauthentication_once_primary server_api_key
              [(world_oauth, "list_spreadsheets", Some ∅);
               (world_oauth, "read_sheet_data", Some {[ "spreadsheet_id" := VStr "abc" ]});
               (world_without_sources, "no_such_tool", None)]
              (ex_intro _ key_sheets eq_refl))
    as (replies & tr & Hserve & _ & Hno & Hkey).
  exists replies, tr. split; [exact Hserve|]. split; [exact Hno|].
  apply (Hkey world_api_key init
           [EvAuthenticate; EvBuild "sheets" "v4" (WithDeveloperKey "key")] "key").
  - reflexivity.
  - reflexivity.
  - apply elem_of_cons. right. apply elem_of_cons. by left.
Defined.

(** ** Searching a sheet *)

Lemma prefix_spec (p s : string) :
  String.prefix p s = true ↔ ∃ q, s = p +:+ q.
Proof.
  revert s. induction p as [|a p IH]; intros s; simpl.
  - split; [intros _; by exists s|by destruct s].
  - destruct s as [|b s]; simpl.
    + split; [done|]. intros [q Hq]. discriminate Hq.
    + destruct (ascii_dec a b) as [->|Hne].
      * rewrite IH. split; intros [q Hq]; exists q; [by rewrite Hq|]. by injection Hq.
      * split; [done|]. intros [q Hq]. injection Hq as -> _. done.
Qed.

Lemma str_contains_spec (needle hay : string) :
  str_contains needle hay = true ↔ ∃ before after, hay = before +:+ needle +:+ after.
Proof.
  induction hay as [|a hay IH]; cbn [str_contains]; rewrite orb_true_iff.
  - split.
    + intros [H|H]; [|done]. apply prefix_spec in H as [q Hq]. by exists EmptyString, q.
    + intros (before & after & H). left. apply prefix_spec.
      destruct before; [by exists after|discriminate H].
  - rewrite IH. split.
    + intros [H|(before & after & ->)].
      * apply prefix_spec in H as [q Hq]. by exists EmptyString, q.
      * by exists (String a before), after.
    + intros (before & after & H). destruct before as [|b before].
      * left. apply prefix_spec. by exists after.
      * right. injection H as _ ->. by exists before, after.
Qed.

Lemma contains_ci_spec (term : string) (cell : pyval) :
  contains_ci term cell ↔ str_contains (lower term) (lower (py_str cell)) = true.
Proof. unfold contains_ci. by rewrite str_contains_spec. Qed.

Lemma scan_row_spec (term : string) (row_idx : Z) (row cells : list pyval) (col : Z)
    (acc : list pyval) :
  for_enumerate
    (λ matches col_idx cell,
       needle ← lower_method (VStr term);
       if str_contains needle (lower (py_str cell))
       then mret (matches ++ [match_entry row_idx col_idx cell row])
       else mret matches)
    col cells acc
  = Return (acc ++ row_matches term row_idx row col cells).
Proof.
  revert col acc. induction cells as [|cell cells IH]; intros col acc; simpl.
  - by rewrite app_nil_r.
  - destruct (str_contains (lower term) (lower (py_str cell))); simpl; rewrite IH.
    + by rewrite <- app_assoc.
    + done.
Qed.

Lemma scan_values_spec (term : string) (rows : list (list pyval)) (row_idx : Z)
    (acc : list pyval) :
  for_enumerate (scan_row (VStr term)) row_idx rows acc
  = Return (acc ++ grid_matches term row_idx rows).
Proof.
  revert row_idx acc. induction rows as [|row rows IH]; intros row_idx acc; simpl.
  - by rewrite app_nil_r.
  - unfold scan_row at 1. rewrite scan_row_spec, IH. by rewrite <- app_assoc.
Qed.

Lemma elem_of_row_matches term row_idx row col cells m :
  m ∈ row_matches term row_idx row col cells ↔
  ∃ (j : nat) cell,
    cells !! j = Some cell ∧
    str_contains (lower term) (lower (py_str cell)) = true ∧
    m = match_entry row_idx (col + Z.of_nat j) cell row.
Proof.
  revert col. induction cells as [|cell cells IH]; intros col; simpl.
  - split; [by intros ?%elem_of_nil|]. by intros (j & c & ? & _).
  - rewrite elem_of_app, IH. split.
    + intros [H|(j & c & Hj & Hc & ->)].
      * destruct (str_contains _ _) eqn:Hc; [|by apply elem_of_nil in H].
        apply list_elem_of_singleton in H as ->.
        exists 0%nat, cell. by rewrite Z.add_0_r.
      * exists (S j), c. split; [done|]. split; [done|]. f_equal. lia.
    + intros ([|j] & c & Hj & Hc & ->); simpl in Hj.
      * injection Hj as ->. left. rewrite Hc, Z.add_0_r. by apply list_elem_of_singleton.
      * right. exists j, c. split; [done|]. split; [done|]. f_equal. lia.
Qed.

Lemma elem_of_grid_matches term row_idx rows m :
  m ∈ grid_matches term row_idx rows ↔
  ∃ (i j : nat) row cell,
    rows !! i = Some row ∧ row !! j = Some cell ∧
    str_contains (lower term) (lower (py_str cell)) = true ∧
    m = match_entry (row_idx + Z.of_nat i) (Z.of_nat j) cell row.
Proof.
  revert row_idx. induction rows as [|row rows IH]; intros row_idx; simpl.
  - split; [by intros ?%elem_of_nil|]. by intros (i & j & r & c & ? & _).
  - rewrite elem_of_app, elem_of_row_matches, IH. split.
    + intros [(j & c & Hj & Hc & ->)|(i & j & r & c & Hi & Hj & Hc & ->)].
      * exists 0%nat, j, row, c. by rewrite Z.add_0_r.
      * exists (S i), j, r, c. repeat (split; [done|]). f_equal. lia.
    + intros ([|i] & j & r & c & Hi & Hj & Hc & ->); simpl in Hi.
      * injection Hi as ->. left. exists j, c. by rewrite Z.add_0_r.
      * right. exists i, j, r, c. repeat (split; [done|]). f_equal. lia.
Qed.

Lemma scan_before_entries r1 c1 x1 w1 r2 c2 x2 w2 :
  scan_before (match_entry r1 c1 x1 w1) (match_entry r2 c2 x2 w2) ↔
  r1 < r2 ∨ (r1 = r2 ∧ c1 < c2).
Proof. unfold scan_before. simpl. lia. Qed.

Lemma row_matches_sorted term row_idx row col cells :
  StronglySorted scan_before (row_matches term row_idx row col cells).
Proof.
  revert col. induction cells as [|cell cells IH]; intros col; simpl.
  - constructor.
  - apply StronglySorted_app_2; [|destruct (str_contains _ _); repeat constructor|apply IH].
    intros m1 m2 H1 H2. destruct (str_contains _ _); [|by apply elem_of_nil in H1].
    apply list_elem_of_singleton in H1 as ->.
    apply elem_of_row_matches in H2 as (j & c & _ & _ & ->).
    apply scan_before_entries. lia.
Qed.

Lemma grid_matches_sorted term row_idx rows :
  StronglySorted scan_before (grid_matches term row_idx rows).
Proof.
  revert row_idx. induction rows as [|row rows IH]; intros row_idx; simpl.
  - constructor.
  - apply StronglySorted_app_2; [|apply row_matches_sorted|apply IH].
    intros m1 m2 H1 H2.
    apply elem_of_row_matches in H1 as (j1 & c1 & _ & _ & ->).
    apply elem_of_grid_matches in H2 as (i & j2 & r & c2 & _ & _ & _ & ->).
    apply scan_before_entries. lia.
Qed.

(** C7.  Given a search term that is a [str] and the grid the provider
    returns, [_search_sheet_data] replies with a success envelope whose
    [matches] are exactly the cells whose [str] form holds the term as a
    substring, letter case aside: each one is reported with its row and
    column counted from 1, the cell itself and the whole row, and the
    reports stand in the order of the scan, row by row and column by column
    within a row; [matches_found] is their number. *)
Theorem search_sheet_data_matches (w : World) (self : server) (h : handle)
    (d : gmap string pyval) (term : string) (resp : Sheets.values_response)
    (Hservice : sheets_service self = Some h)
    (Hterm : d !! "search_term" = Some (VStr term))
    (Hremote : sheets_values_get w h
                 {[ "spreadsheetId" := default VNone (d !! "spreadsheet_id");
                    "range" := default (VStr "Sheet1") (d !! "sheet_name") ]}
               = Return resp) :
  ∃ matches,
    (_search_sheet_data w (Some d) self).1.1
      = Return [text_content (json_dumps (VDict
          [("status", VStr "success");
           ("search_term", VStr term);
           ("sheet_name", default (VStr "Sheet1") (d !! "sheet_name"));
           ("matches_found", VInt (Z.of_nat (length matches)));
           ("matches", VList matches)]) 2)] ∧
    (∀ m, m ∈ matches ↔
       ∃ (r c : nat) row cell,
         default [] (Sheets.values resp) !! r = Some row ∧
         row !! c = Some cell ∧
         contains_ci term cell ∧
         m = VDict [("row", VInt (Z.of_nat r + 1));
                    ("column", VInt (Z.of_nat c + 1));
                    ("cell_value", cell);
                    ("full_row", VList row)]) ∧
    StronglySorted scan_before matches.
Proof.
  exists (grid_matches term 0 (default [] (Sheets.values resp))). split; [|split].
  - unfold _search_sheet_data, arguments_get, spreadsheets, scan_values. unfold_M.
    cbn beta iota zeta. rewrite Hterm, Hservice. cbn beta iota zeta.
    change (default VNone (Some (VStr term))) with (VStr term).
    rewrite Hremote. cbn beta iota zeta.
    by rewrite scan_values_spec.
  - intros m. rewrite elem_of_grid_matches.
    split; intros (r & c & row & cell & Hr & Hc & Hin & ->);
      exists r, c, row, cell; (split; [done|]); (split; [done|]);
      (split; [by apply contains_ci_spec|]); reflexivity.
  - apply grid_matches_sorted.
Qed.

Lemma search_sheet_data_matches_witness :
  ∃ matches,
    (_search_sheet_data world_api_key
       (Some {[ "spreadsheet_id" := VStr "abc"; "search_term" := VStr "OB" ]})
       server_api_key).1.1
      = Return [text_content (json_dumps (VDict
          [("status", VStr "success");
           ("search_term", VStr "OB");
           ("sheet_name", VStr "Sheet1");
           ("matches_found", VInt (Z.of_nat (length matches)));
           ("matches", VList matches)]) 2)] ∧
    (VDict [("row", VInt 2); ("column", VInt 1); ("cell_value", VStr "bob");
            ("full_row", VList [VStr "bob"; VStr "7"])] ∈ matches) ∧
    StronglySorted scan_before matches.
Proof.
  assert (({[ "spreadsheet_id" := VStr "abc"; "search_term" := VStr "OB" ]}
            : gmap string pyval) !! "search_term" = Some (VStr "OB")) as Hterm
    by (vm_compute; reflexivity).
  destruct (search_sheet_data_matches world_api_key server_api_key key_sheets
              {[ "spreadsheet_id" := VStr "abc"; "search_term" := VStr "OB" ]} "OB"
              {| Sheets.values := Some sample_grid |} eq_refl Hterm eq_refl)
    as (matches & Hreply & Hiff & Hsorted).
  exists matches. split; [|split; [|exact Hsorted]].
  - rewrite Hreply. vm_compute. reflexivity.
  - apply Hiff. exists 1%nat, 0%nat, [VStr "bob"; VStr "7"], (VStr "bob").
    repeat split. by exists "b", EmptyString.
Defined.

(** The example of the specification: rows [Alice, 5] and [bob, 7] searched
    for [OB] give one match, at row 2 and column 1, with cell value [bob]. *)
Example search_sheet_data_example :
  (_search_sheet_data world_api_key
     (Some {[ "spreadsheet_id" := VStr "abc"; "search_term" := VStr "OB" ]})
     server_api_key).1.1
  = Return [text_content (json_dumps (VDict
      [("status", VStr "success");
       ("search_term", VStr "OB");
       ("sheet_name", VStr "Sheet1");
       ("matches_found", VInt 1);
       ("matches", VList
          [VDict [("row", VInt 2); ("column", VInt 1); ("cell_value", VStr "bob");
                  ("full_row", VList [VStr "bob"; VStr "7"])]])]) 2)].
Proof. vm_compute. reflexivity. Qed.

(** ** Row and column counts *)

(** C9, amended.  When the provider returns at least one row, the success
    envelopes of [_read_sheet_data] and [_get_range_data] carry the whole
    grid as [data] and the length of its first row as [column_count],
    whatever the later rows are.  When it returns no row, [column_count] is
    0 in the envelope of [_get_range_data] only; the envelope of
    [_read_sheet_data] is then the one that reports no data, which has no
    such field. *)
Theorem column_count_is_first_row_length (w : World) (self : server) (h : handle)
    (d : gmap string pyval) (resp : Sheets.values_response)
    (Hservice : sheets_service self = Some h)
    (Hremote : ∀ kwargs, sheets_values_get w h kwargs = Return resp) :
  ∃ read_fields range_fields,
    (_read_sheet_data w (Some d) self).1.1
      = Return [text_content (json_dumps
          (VDict (("status", VStr "success") :: read_fields)) 2)] ∧
    (_get_range_data w (Some d) self).1.1
      = Return [text_content (json_dumps
          (VDict (("status", VStr "success") :: range_fields)) 2)] ∧
    match default [] (Sheets.values resp) with
    | row0 :: later =>
        field "data" read_fields = Some (VList (VList <$> row0 :: later)) ∧
        field "column_count" read_fields = Some (VInt (Z.of_nat (length row0))) ∧
        field "data" range_fields = Some (VList (VList <$> row0 :: later)) ∧
        field "column_count" range_fields = Some (VInt (Z.of_nat (length row0)))
    | [] =>
        field "data" read_fields = Some (VList []) ∧
        field "column_count" read_fields = None ∧
        field "data" range_fields = Some (VList []) ∧
        field "column_count" range_fields = Some (VInt 0)
    end.
Proof.
  unfold _read_sheet_data, _get_range_data, arguments_get, spreadsheets. unfold_M.
  cbn beta iota zeta. rewrite Hservice. cbn beta iota zeta.
  rewrite !Hremote. cbn beta iota zeta.
  destruct (default [] (Sheets.values resp)) as [|row0 later];
    eexists _, _; (split; [reflexivity|]); (split; [reflexivity|]);
    repeat split.
Qed.

Lemma column_count_is_first_row_length_witness :
  ∃ read_fields range_fields,
    (_read_sheet_data world_api_key (Some {[ "spreadsheet_id" := VStr "abc" ]})
       server_api_key).1.1
      = Return [text_content (json_dumps
          (VDict (("status", VStr "success") :: read_fields)) 2)] ∧
    (_get_range_data world_api_key (Some {[ "spreadsheet_id" := VStr "abc" ]})
       server_api_key).1.1
      = Return [text_content (json_dumps
          (VDict (("status", VStr "success") :: range_fields)) 2)] ∧
    field "column_count" read_fields = Some (VInt 2) ∧
    field "column_count" range_fields = Some (VInt 2).
Proof.
  destruct (column_count_is_first_row_length world_api_key server_api_key key_sheets
              {[ "spreadsheet_id" := VStr "abc" ]}
              {| Sheets.values := Some sample_grid |} eq_refl (λ _, eq_refl))
    as (read_fields & range_fields & Hread & Hrange & _ & Hc1 & _ & Hc2).
  exists read_fields, range_fields. repeat split; assumption.
Defined.

(** C9, at an input where it fails.  The provider returns no row:
    [_read_sheet_data] replies with a success envelope that has no
    [column_count], in its fields or anywhere in its text, where the claim
    has a [column_count] of 0. *)
Lemma read_sheet_data_without_rows_has_no_column_count :
  (_read_sheet_data
     (world None false (Some "key") (Raise (Exn "RefreshError" "invalid_grant")) [])
     (Some {[ "spreadsheet_id" := VStr "abc" ]}) server_api_key).1.1
    = Return [text_content (json_dumps (VDict
        [("status", VStr "success");
         ("message", VStr "No data found in the specified range");
         ("data", VList [])]) 2)] ∧
  field "column_count"
    [("status", VStr "success");
     ("message", VStr "No data found in the specified range");
     ("data", VList [])] = None ∧
  str_contains "column_count" (json_dumps (VDict
    [("status", VStr "success");
     ("message", VStr "No data found in the specified range");
     ("data", VList [])]) 2) = false.
Proof. repeat split; vm_compute; reflexivity. Qed.

(** A grid whose first row is the shortest: [column_count] is 1, not the
    greatest width 3. *)
Example column_count_ragged_grid :
  (_get_range_data
     (world None false (Some "key") (Raise (Exn "RefreshError" "invalid_grant"))
        [[VStr "a"]; [VStr "b"; VStr "c"; VStr "d"]])
     (Some {[ "spreadsheet_id" := VStr "abc"; "range" := VStr "Sheet1!A1:C2" ]})
     server_api_key).1.1
  = Return [text_content (json_dumps (VDict
      [("status", VStr "success");
       ("spreadsheet_id", VStr "abc");
       ("range", VStr "Sheet1!A1:C2");
       ("value_render_option", VStr "FORMATTED_VALUE");
       ("row_count", VInt 2);
       ("column_count", VInt 1);
       ("data", VList [VList [VStr "a"]; VList [VStr "b"; VStr "c"; VStr "d"]])]) 2)].
Proof. vm_compute. reflexivity. Qed.

(** ** The name in the filter expression *)

Lemma name_query_shape (exact_match : pyval) (name : string) :
  name_query exact_match (VStr name)
    = name_query_prefix exact_match +:+ name +:+ chr squote.
Proof. unfold name_query, name_query_prefix. by destruct (py_truthy exact_match). Qed.

Lemma append_inj_l (p a b : string) : p +:+ a = p +:+ b → a = b.
Proof. induction p as [|c p IH]; simpl; [done|]. intros H. injection H as H. auto. Qed.

Lemma literal_in_query_iff (exact_match : pyval) (name : string) :
  literal_in_query exact_match name ↔
  read_literal (name +:+ chr squote) = Some (name, EmptyString).
Proof.
  unfold literal_in_query. split.
  - intros (rest & Hq & Hread). rewrite name_query_shape in Hq.
    apply append_inj_l in Hq. by rewrite Hq.
  - intros Hread. exists (name +:+ chr squote). split; [apply name_query_shape|done].
Qed.

Lemma read_literal_clean (s rest : string) :
  str_has squote s = false → str_has backslash s = false →
  read_literal (s +:+ String squote rest) = Some (s, rest).
Proof.
  induction s as [|a s IH]; simpl; [done|].
  intros [Hq Hs]%orb_false_iff [Hb Hs']%orb_false_iff.
  by rewrite Hq, Hb, IH.
Qed.

Lemma read_literal_length (n : nat) (x lit rest : string) :
  (String.length x ≤ n)%nat →
  read_literal x = Some (lit, rest) →
  (String.length lit + String.length rest < String.length x)%nat.
Proof.
  revert x lit rest. induction n as [|n IH]; intros x lit rest Hn Hread.
  - destruct x; [discriminate Hread|simpl in Hn; lia].
  - destruct x as [|c x]; [discriminate Hread|]. simpl in Hread, Hn.
    destruct (Ascii.eqb c squote).
    + injection Hread as <- <-. simpl. lia.
    + destruct (Ascii.eqb c backslash).
      * destruct x as [|c' x]; [discriminate Hread|].
        destruct (read_literal x) as [[lit' rest']|] eqn:Hx; [|discriminate Hread].
        injection Hread as <- <-. simpl in Hn.
        apply IH in Hx; [|lia]. simpl. lia.
      * destruct (read_literal x) as [[lit' rest']|] eqn:Hx; [|discriminate Hread].
        injection Hread as <- <-. apply IH in Hx; [|lia]. simpl. lia.
Qed.

Lemma string_length_app (a b : string) :
  String.length (a +:+ b) = (String.length a + String.length b)%nat.
Proof. induction a as [|c a IH]; simpl; [done|]. by rewrite IH. Qed.

Lemma read_literal_exact (s : string) :
  read_literal (s +:+ chr squote) = Some (s, EmptyString) →
  str_has squote s = false ∧ str_has backslash s = false.
Proof.
  induction s as [|a s IH]; simpl; [done|].
  destruct (Ascii.eqb a squote) eqn:Hq; [discriminate|].
  destruct (Ascii.eqb a backslash) eqn:Hb.
  - destruct s as [|b s]; simpl; [discriminate|].
    destruct (read_literal (s +:+ chr squote)) as [[lit rest]|] eqn:Hs; [|discriminate].
    intros H. injection H as _ -> ->.
    apply (read_literal_length _ _ _ _ (le_n _)) in Hs.
    rewrite string_length_app in Hs. simpl in Hs. lia.
  - destruct (read_literal (s +:+ chr squote)) as [[lit rest]|] eqn:Hs; [|discriminate].
    intros H. injection H as -> ->. by apply IH.
Qed.

Lemma search_spreadsheets_request w self drive d :
  drive_service self = Some drive →
  (_search_spreadsheets_by_name w (Some d) self).2
    = [EvDriveFilesList drive
         {[ "q" := VStr (name_query (default (VBool false) (d !! "exact_match"))
                           (default VNone (d !! "name")));
            "pageSize" := VInt 50;
            "fields" := VStr "nextPageToken, files(id, name, modifiedTime, createdTime, owners)" ]}].
Proof.
  intros Hdrive. unfold _search_spreadsheets_by_name, arguments_get. unfold_M.
  cbn beta iota zeta. rewrite Hdrive. cbn beta iota zeta.
  repeat step_op; reflexivity.
Qed.

(** C4, amended.  [_search_spreadsheets_by_name] writes the name into the
    filter expression as it is, between single quotes and with nothing
    escaped; the name is literal data in the filter exactly when it holds
    no single quote and no backslash. *)
Theorem name_is_interpolated_verbatim (w : World) (self : server) (drive : handle)
    (d : gmap string pyval) (name : string)
    (Hdrive : drive_service self = Some drive)
    (Hname : d !! "name" = Some (VStr name)) :
  ∃ kwargs,
    (_search_spreadsheets_by_name w (Some d) self).2 = [EvDriveFilesList drive kwargs] ∧
    kwargs !! "q"
      = Some (VStr (name_query_prefix (default (VBool false) (d !! "exact_match"))
                      +:+ name +:+ chr squote)) ∧
    (literal_in_query (default (VBool false) (d !! "exact_match")) name ↔
     str_has squote name = false ∧ str_has backslash name = false).
Proof.
  eexists. split; [by apply search_spreadsheets_request|]. split.
  - rewrite lookup_insert_eq, Hname. simpl. by rewrite name_query_shape.
  - rewrite literal_in_query_iff. split; [apply read_literal_exact|].
    intros [Hq Hb]. by apply read_literal_clean.
Qed.

Lemma name_is_interpolated_verbatim_witness :
  ∃ kwargs,
    (_search_spreadsheets_by_name world_oauth (Some {[ "name" := VStr "Budget 2024" ]})
       server_oauth).2 = [EvDriveFilesList oauth_drive kwargs] ∧
    kwargs !! "q"
      = Some (VStr "mimeType='application/vnd.google-apps.spreadsheet' and name contains 'Budget 2024'") ∧
    literal_in_query (VBool false) "Budget 2024".
Proof.
  assert (({[ "name" := VStr "Budget 2024" ]} : gmap string pyval) !! "name"
          = Some (VStr "Budget 2024")) as Hname by (vm_compute; reflexivity).
  assert (({[ "name" := VStr "Budget 2024" ]} : gmap string pyval) !! "exact_match"
          = None) as Hexact by (vm_compute; reflexivity).
  destruct (name_is_interpolated_verbatim world_oauth server_oauth oauth_drive
              {[ "name" := VStr "Budget 2024" ]} "Budget 2024" eq_refl Hname)
    as (kwargs & Htrace & Hq & Hliteral).
  rewrite Hexact in Hq, Hliteral. exists kwargs.
  split; [exact Htrace|]. split; [exact Hq|]. apply Hliteral. split; reflexivity.
Defined.

(** C4, at an input where it fails.  The name [x' or name contains 'y]
    reaches the filter expression unescaped: its first quote closes the
    quoted string, and the rest of the name is read as filter syntax. *)
Lemma quoting_name_is_not_escaped :
  ∃ kwargs,
    (_search_spreadsheets_by_name world_oauth (Some {[ "name" := VStr quoting_name ]})
       server_oauth).2 = [EvDriveFilesList oauth_drive kwargs] ∧
    kwargs !! "q"
      = Some (VStr "mimeType='application/vnd.google-apps.spreadsheet' and name contains 'x' or name contains 'y'") ∧
    read_literal (quoting_name +:+ chr squote) = Some ("x", " or name contains 'y'") ∧
    ¬ literal_in_query (VBool false) quoting_name.
Proof.
  eexists. split; [by apply search_spreadsheets_request|].
  split; [vm_compute; reflexivity|]. split; [reflexivity|].
  rewrite literal_in_query_iff. discriminate.
Qed.

(** ** Missing arguments *)

Ltac run_request :=
  unfold arguments_get, spreadsheets; unfold_M; cbn beta iota zeta;
  match goal with H : sheets_service _ = Some _ |- _ => rewrite H end;
  cbn beta iota zeta; repeat step_op; reflexivity.

Lemma read_sheet_data_request w self h d :
  sheets_service self = Some h →
  (_read_sheet_data w (Some d) self).2
    = [EvSheetsValuesGet h
         {[ "spreadsheetId" := default VNone (d !! "spreadsheet_id");
            "range" := default (VStr "Sheet1") (d !! "range") ]}].
Proof. intros Hs. unfold _read_sheet_data. run_request. Qed.

Lemma get_sheet_metadata_request w self h d :
  sheets_service self = Some h →
  (_get_sheet_metadata w (Some d) self).2
    = [EvSheetsGet h {[ "spreadsheetId" := default VNone (d !! "spreadsheet_id") ]}].
Proof. intros Hs. unfold _get_sheet_metadata. run_request. Qed.

Lemma list_sheets_request w self h d :
  sheets_service self = Some h →
  (_list_sheets w (Some d) self).2
    = [EvSheetsGet h
         {[ "spreadsheetId" := default VNone (d !! "spreadsheet_id");
            "fields" := VStr "sheets.properties" ]}].
Proof. intros Hs. unfold _list_sheets. run_request. Qed.

Lemma search_sheet_data_request w self h d :
  sheets_service self = Some h →
  (_search_sheet_data w (Some d) self).2
    = [EvSheetsValuesGet h
         {[ "spreadsheetId" := default VNone (d !! "spreadsheet_id");
            "range" := default (VStr "Sheet1") (d !! "sheet_name") ]}].
Proof. intros Hs. unfold _search_sheet_data. run_request. Qed.

Lemma get_range_data_request w self h d :
  sheets_service self = Some h →
  (_get_range_data w (Some d) self).2
    = [EvSheetsValuesGet h
         {[ "spreadsheetId" := default VNone (d !! "spreadsheet_id");
            "range" := default VNone (d !! "range");
            "valueRenderOption" :=
              default (VStr "FORMATTED_VALUE") (d !! "value_render_option") ]}].
Proof. intros Hs. unfold _get_range_data. run_request. Qed.

(** Without a search term the scan fails at the first cell it meets, and
    only there. *)
Lemma scan_without_term (rows : list (list pyval)) (row_idx : Z) (acc : list pyval) :
  for_enumerate (scan_row VNone) row_idx rows acc
  = if forallb (λ row, bool_decide (row = [])) rows
    then Return acc
    else Raise (AttributeError VNone "lower").
Proof.
  revert row_idx acc. induction rows as [|row rows IH]; intros row_idx acc; simpl.
  - done.
  - destruct row as [|cell row]; simpl; [apply IH|done].
Qed.

(** C6, amended.  No operation checks that a required argument is present:
    an absent one is read as [None] and the operation goes on.  On a server
    that has its Sheets service no [Exception] reaches the host: each of the
    seven operations replies with one envelope, unless its provider request
    raises an exception that is not an [Exception], which passes through.
    An absent [name] is searched for as the text [None]; an absent
    [search_term] gives a success envelope without matches when the grid
    has no cell and otherwise the error envelope of the failed method call
    on [None]; an absent [spreadsheet_id] or [range] goes to the provider
    as [None]. *)
Theorem missing_arguments_are_read_as_None (w : World) (self : server) (h : handle)
    (d : gmap string pyval)
    (Hservice : sheets_service self = Some h) :
  (∀ name, name ∈ tool_table →
     ∃ r tr,
       handle_call_tool w name (Some d) self = (r, self, tr) ∧
       match r with
       | Return content => ∃ t, content = [text_content t] ∧ envelope t
       | Raise e => is_Exception e = false ∧ provider_raises w tr e
       end) ∧
  (∀ drive, drive_service self = Some drive → d !! "name" = None →
     (_search_spreadsheets_by_name w (Some d) self).2
       = [EvDriveFilesList drive
            {[ "q" := VStr (name_query_prefix (default (VBool false) (d !! "exact_match"))
                              +:+ "None'");
               "pageSize" := VInt 50;
               "fields" := VStr "nextPageToken, files(id, name, modifiedTime, createdTime, owners)" ]}]) ∧
  (∀ resp, d !! "search_term" = None →
     (∀ kwargs, sheets_values_get w h kwargs = Return resp) →
     (_search_sheet_data w (Some d) self).1.1
       = Return [text_content (json_dumps
           (if forallb (λ row, bool_decide (row = [])) (default [] (Sheets.values resp))
            then VDict [("status", VStr "success");
                        ("search_term", VNone);
                        ("sheet_name", default (VStr "Sheet1") (d !! "sheet_name"));
                        ("matches_found", VInt 0);
                        ("matches", VList [])]
            else error_envelope "'NoneType' object has no attribute 'lower'") 2)]) ∧
  (d !! "spreadsheet_id" = None →
     (_read_sheet_data w (Some d) self).2
       = [EvSheetsValuesGet h
            {[ "spreadsheetId" := VNone;
               "range" := default (VStr "Sheet1") (d !! "range") ]}] ∧
     (_get_sheet_metadata w (Some d) self).2
       = [EvSheetsGet h {[ "spreadsheetId" := VNone ]}] ∧
     (_list_sheets w (Some d) self).2
       = [EvSheetsGet h
            {[ "spreadsheetId" := VNone; "fields" := VStr "sheets.properties" ]}] ∧
     (_search_sheet_data w (Some d) self).2
       = [EvSheetsValuesGet h
            {[ "spreadsheetId" := VNone;
               "range" := default (VStr "Sheet1") (d !! "sheet_name") ]}] ∧
     (_get_range_data w (Some d) self).2
       = [EvSheetsValuesGet h
            {[ "spreadsheetId" := VNone;
               "range" := default VNone (d !! "range");
               "valueRenderOption" :=
                 default (VStr "FORMATTED_VALUE") (d !! "value_render_option") ]}]) ∧
  (d !! "range" = None →
     (_get_range_data w (Some d) self).2
       = [EvSheetsValuesGet h
            {[ "spreadsheetId" := default VNone (d !! "spreadsheet_id");
               "range" := VNone;
               "valueRenderOption" :=
                 default (VStr "FORMATTED_VALUE") (d !! "value_render_option") ]}]).
Proof.
  split; [|split; [|split; [|split]]].
  - intros name Hname.
    destruct (handle_call_tool_established w name (Some d) self (ex_intro _ h Hservice))
      as (r & tr & Hcall & _ & _ & _ & Hr).
    exists r, tr. split; [done|]. destruct r as [content|e]; [|done].
    destruct Hr as (t & -> & Ht). eauto.
  - intros drive Hdrive Hname.
    rewrite (search_spreadsheets_request _ _ _ _ Hdrive), Hname.
    unfold name_query, name_query_prefix. by destruct (py_truthy _).
  - intros resp Hterm Hremote.
    unfold _search_sheet_data, arguments_get, spreadsheets, scan_values. unfold_M.
    cbn beta iota zeta. rewrite Hterm, Hservice. cbn beta iota zeta.
    rewrite Hremote. cbn beta iota zeta.
    change (default VNone None) with VNone. rewrite scan_without_term.
    by destruct (forallb _ _).
  - intros Hid.
    rewrite (read_sheet_data_request _ _ _ _ Hservice),
      (get_sheet_metadata_request _ _ _ _ Hservice),
      (list_sheets_request _ _ _ _ Hservice),
      (search_sheet_data_request _ _ _ _ Hservice),
      (get_range_data_request _ _ _ _ Hservice), Hid.
    repeat split.
  - intros Hrange. by rewrite (get_range_data_request _ _ _ _ Hservice), Hrange.
Qed.

Lemma missing_arguments_are_read_as_None_witness :
  (∃ r tr,
     handle_call_tool world_oauth "search_sheet_data" (Some ∅) server_oauth
       = (r, server_oauth, tr) ∧
     match r with
     | Return content => ∃ t, content = [text_content t] ∧ envelope t
     | Raise e => is_Exception e = false ∧ provider_raises world_oauth tr e
     end) ∧
  (_read_sheet_data world_oauth (Some ∅) server_oauth).2
    = [EvSheetsValuesGet oauth_sheets
         {[ "spreadsheetId" := VNone; "range" := VStr "Sheet1" ]}].
Proof.
  pose proof (missing_arguments_are_read_as_None world_oauth server_oauth oauth_sheets ∅
                eq_refl) as (Hcall & _ & _ & Hid & _).
  split.
  - apply Hcall. unfold tool_table. rewrite !elem_of_cons. tauto.
  - apply (proj1 (Hid (lookup_empty _))).
Defined.

(** C6, at an input where it fails.  [search_spreadsheets_by_name] called
    without [name] does not report the missing field: it asks the provider
    for files named [None] and replies with a success envelope. *)
Lemma missing_name_is_not_reported :
  (∅ : gmap string pyval) !! "name" = None ∧
  (handle_call_tool world_oauth "search_spreadsheets_by_name" (Some ∅) server_oauth).1.1
    = Return [text_content (json_dumps (VDict
        [("status", VStr "success");
         ("search_term", VNone);
         ("exact_match", VBool false);
         ("message", VStr "No spreadsheets found matching 'None'.");
         ("matches_found", VInt 0);
         ("spreadsheets", VList [])]) 2)] ∧
  ¬ is_error_envelope (json_dumps (VDict
        [("status", VStr "success");
         ("search_term", VNone);
         ("exact_match", VBool false);
         ("message", VStr "No spreadsheets found matching 'None'.");
         ("matches_found", VInt 0);
         ("spreadsheets", VList [])]) 2).
Proof.
  split; [apply lookup_empty|]. split; [vm_compute; reflexivity|].
  intros [message H]. by apply success_is_not_error in H.
Qed.

(** * Further properties of the code *)

(** ** The authenticator in general *)

Ltac auth_cases Hrun :=
  unfold authenticate_google_services in Hrun; unfold_M;
  cbn beta iota zeta in Hrun;
  repeat match type of Hrun with
  | context [match ?x with _ => _ end] =>
      match type of x with
      | option _ => destruct x eqn:?
      | result _ => destruct x eqn:?
      | bool => destruct x eqn:?
      end; cbn beta iota zeta in Hrun
  end;
  try discriminate Hrun; simplify_eq.

Ltac not_in_trace H :=
  repeat (apply elem_of_cons in H as [H|H]; [try discriminate H|]);
  try (by apply elem_of_nil in H).

(** X1.  The authenticator returns normally only with the Sheets service
    set, and with the Drive service set as well unless it built the Sheets
    service from the API key. *)
Theorem authenticate_returns_with_sheets (w : World) (self self1 : server)
    (tr : list event)
    (Hrun : authenticate_google_services w self = (Return (), self1, tr)) :
  is_Some (sheets_service self1) ∧
  ((∀ api_key, EvBuild "sheets" "v4" (WithDeveloperKey api_key) ∉ tr) →
   is_Some (drive_service self1)).
Proof.
  auth_cases Hrun; (split; [simpl; eauto|]); intros Hkey; simpl; eauto;
    exfalso; eapply Hkey; simpl; rewrite !elem_of_cons; eauto.
Qed.

Lemma authenticate_returns_with_sheets_witness :
  is_Some (sheets_service server_oauth) ∧ is_Some (drive_service server_oauth).
Proof.
  destruct (authenticate_returns_with_sheets world_oauth init server_oauth
              [EvAuthenticate; EvLoadToken;
               EvBuild "sheets" "v4" (WithCredentials fresh_creds);
               EvBuild "drive" "v3" (WithCredentials fresh_creds)] eq_refl)
    as [Hsheets Hdrive].
  split; [exact Hsheets|]. apply Hdrive. intros api_key Hin. not_in_trace Hin.
Defined.

(** X2.  When the authenticator raises, the server object is as it was
    before, with one exception: if the Sheets service was built and the
    build of the Drive service is what failed, [sheets_service] has already
    been assigned. *)
Theorem authenticate_failure_state (w : World) (self self1 : server) (e : exn)
    (tr : list event)
    (Hrun : authenticate_google_services w self = (Raise e, self1, tr)) :
  self1 = self ∨
  ∃ hs c,
    self1 = {| sheets_service := Some hs; drive_service := drive_service self |} ∧
    build w "sheets" "v4" (WithCredentials c) = Return hs ∧
    build w "drive" "v3" (WithCredentials c) = Raise e.
Proof. auth_cases Hrun; eauto 10. Qed.

Lemma authenticate_failure_state_witness :
  authenticate_google_services world_drive_build_fails init
    = (Raise (Exn "HttpError" "drive discovery failed"),
       {| sheets_service := Some oauth_sheets; drive_service := None |},
       [EvAuthenticate; EvLoadToken;
        EvBuild "sheets" "v4" (WithCredentials fresh_creds);
        EvBuild "drive" "v3" (WithCredentials fresh_creds)]) ∧
  ({| sheets_service := Some oauth_sheets; drive_service := None |} = init ∨
   ∃ hs c,
     {| sheets_service := Some oauth_sheets; drive_service := None |}
       = {| sheets_service := Some hs; drive_service := drive_service init |} ∧
     build world_drive_build_fails "sheets" "v4" (WithCredentials c) = Return hs ∧
     build world_drive_build_fails "drive" "v3" (WithCredentials c)
       = Raise (Exn "HttpError" "drive discovery failed")).
Proof.
  split; [reflexivity|].
  exact (authenticate_failure_state world_drive_build_fails init _ _ _ eq_refl).
Defined.

(** X3.  [token.json] is written only with credentials the run has just
    obtained, from a refresh of the stored credential or from the
    interactive flow; and when that write fails the authentication fails
    with the same exception, no service built and the server object
    unchanged. *)
Theorem token_written_only_when_obtained (w : World) (self self1 : server)
    (r : result ()) (tr : list event) (c : Credentials)
    (Hrun : authenticate_google_services w self = (r, self1, tr))
    (Hwrite : EvWriteToken c ∈ tr) :
  ((∃ stored, token_json w = Some (Return stored) ∧ refresh w stored = Return c ∧
              EvRefresh stored ∈ tr) ∨
   (run_local_server w = Return c ∧ EvRunLocalServer ∈ tr)) ∧
  (∀ e, write_token w c = Raise e →
        r = Raise e ∧ self1 = self ∧ Forall (λ ev, is_build_event ev = false) tr).
Proof.
  auth_cases Hrun; not_in_trace Hwrite; simplify_eq;
    (split;
     [ first [ left; eexists; split; [reflexivity|]; split; [eassumption|];
               simpl; rewrite !elem_of_cons; by eauto 10
             | right; split; [done|]; simpl; rewrite !elem_of_cons; by eauto 10 ]
     | intros e' He';
       first [ congruence
             | split; [congruence|]; split; [reflexivity|];
               simpl; repeat constructor ] ]).
Qed.

Lemma token_written_only_when_obtained_witness :
  (∃ stored, token_json (world (Some (Return expired_creds)) false None
                           (Return fresh_creds) sample_grid) = Some (Return stored) ∧
             EvRefresh stored ∈ [EvAuthenticate; EvLoadToken; EvRefresh expired_creds;
                                 EvWriteToken fresh_creds;
                                 EvBuild "sheets" "v4" (WithCredentials fresh_creds);
                                 EvBuild "drive" "v3" (WithCredentials fresh_creds)]) ∨
  EvRunLocalServer ∈ [EvAuthenticate; EvLoadToken; EvRefresh expired_creds;
                      EvWriteToken fresh_creds;
                      EvBuild "sheets" "v4" (WithCredentials fresh_creds);
                      EvBuild "drive" "v3" (WithCredentials fresh_creds)].
Proof.
  assert (EvWriteToken fresh_creds
            ∈ [EvAuthenticate; EvLoadToken; EvRefresh expired_creds;
               EvWriteToken fresh_creds;
               EvBuild "sheets" "v4" (WithCredentials fresh_creds);
               EvBuild "drive" "v3" (WithCredentials fresh_creds)]) as Hin
    by (rewrite !elem_of_cons; tauto).
  destruct (token_written_only_when_obtained
              (world (Some (Return expired_creds)) false None (Return fresh_creds)
                 sample_grid)
              init server_oauth (Return ()) _ fresh_creds eq_refl Hin)
    as [[(stored & Hs & _ & Hr)|[_ Hr]] _]; [left; eauto|right; exact Hr].
Defined.

(** X4.  One run of the authenticator uses at most one credential source:
    among a refresh, the interactive flow and a build from the API key, at
    most one appears in its trace, whatever the outcome. *)
Theorem authenticate_uses_one_source (w : World) (self : server) :
  (length (List.filter is_source_event (authenticate_google_services w self).2) ≤ 1)%nat.
Proof.
  destruct (authenticate_google_services w self) as [[r self1] tr] eqn:Hrun.
  auth_cases Hrun; simpl; lia.
Qed.

(** ** The dispatcher in general *)

Lemma authenticate_sets_sheets w self self1 tr :
  authenticate_google_services w self = (Return (), self1, tr) →
  is_Some (sheets_service self1).
Proof. intros Hrun. auth_cases Hrun; simpl; eauto. Qed.

(** X5.  On a server that has its Sheets service, every tool call,
    whatever the name, the arguments and the world, leaves the server object
    as it was, makes at most one request to the provider and no other call
    outside the process, and ends in one of two ways: it returns exactly one
    text content, or it lets through an exception that is not an
    [Exception] and that its one provider request raised.  In a world whose
    provider raises [Exception]s only, every call returns one text
    content. *)
Theorem call_makes_at_most_one_request (w : World) (name : string)
    (arguments : option (gmap string pyval)) (self : server)
    (Hservice : is_Some (sheets_service self)) :
  ∃ r tr,
    handle_call_tool w name arguments self = (r, self, tr) ∧
    (length tr ≤ 1)%nat ∧
    Forall (λ ev, is_remote_call ev = true) tr ∧
    match r with
    | Return content => ∃ t, content = [text_content t]
    | Raise e => is_Exception e = false ∧ provider_raises w tr e
    end ∧
    (provider_raises_only_Exceptions w → ∃ t, r = Return [text_content t]).
Proof.
  destruct (handle_call_tool_established w name arguments self Hservice)
    as (r & tr & Heq & _ & Hlen & Htr & Hr).
  exists r, tr. split; [done|]. split; [done|]. split; [done|].
  destruct r as [content|e].
  - destruct Hr as (t & -> & _). split; eauto.
  - destruct Hr as [He Hp]. split; [done|].
    intros Hw. specialize (Hw _ _ Hp). congruence.
Qed.

Lemma call_makes_at_most_one_request_witness :
  ∃ r tr,
    handle_call_tool world_provider_down "list_sheets" None server_oauth
      = (r, server_oauth, tr) ∧
    (length tr ≤ 1)%nat.
Proof.
  destruct (call_makes_at_most_one_request world_provider_down "list_sheets" None
              server_oauth (ex_intro _ oauth_sheets eq_refl))
    as (r & tr & Hcall & Hlen & _).
  exists r, tr. split; [exact Hcall|exact Hlen].
Defined.

(** X6.  On a server without a Sheets service a tool call is the
    authentication followed by the same call on the server the
    authentication leaves; when the authentication raises, the call raises
    the same exception, with the server and the trace the authentication
    left and no operation run. *)
Theorem call_authenticates_first (w : World) (name : string)
    (arguments : option (gmap string pyval)) (self : server)
    (Hnone : sheets_service self = None) :
  match authenticate_google_services w self with
  | (Return _, self1, tr1) =>
      handle_call_tool w name arguments self
        = (let '(r, self2, tr2) := handle_call_tool w name arguments self1 in
           (r, self2, tr1 ++ tr2))
  | (Raise e, self1, tr1) =>
      handle_call_tool w name arguments self = (Raise e, self1, tr1)
  end.
Proof.
  destruct (authenticate_google_services w self) as [[[[]|e] self1] tr1] eqn:Hauth.
  - destruct (authenticate_sets_sheets _ _ _ _ Hauth) as [h Hh].
    unfold handle_call_tool, mbind, M_bind, get_self, mret, M_ret.
    rewrite Hnone, Hauth, Hh. cbn beta iota zeta.
    by destruct (try_except _ _ self1) as [[r self2] tr2].
  - unfold handle_call_tool, mbind, M_bind, get_self. by rewrite Hnone, Hauth.
Qed.

Lemma call_authenticates_first_witness :
  handle_call_tool world_oauth "list_spreadsheets" (Some ∅) init
    = (let '(r, self2, tr2) :=
         handle_call_tool world_oauth "list_spreadsheets" (Some ∅) server_oauth in
       (r, self2,
        [EvAuthenticate; EvLoadToken;
         EvBuild "sheets" "v4" (WithCredentials fresh_creds);
         EvBuild "drive" "v3" (WithCredentials fresh_creds)] ++ tr2)).
Proof. exact (call_authenticates_first world_oauth "list_spreadsheets" (Some ∅) init eq_refl). Defined.

(** X7.  Without an argument mapping ([arguments] is [None]) no request
    reaches the provider.  The five Sheets operations fail outside their
    own [try], so the dispatcher answers in plain text; the two Drive
    operations answer with their own error envelope. *)
Theorem call_without_arguments (w : World) (self : server) (h : handle)
    (Hservice : sheets_service self = Some h) :
  (∀ name,
     name ∈ ["read_sheet_data"; "get_sheet_metadata"; "list_sheets";
             "search_sheet_data"; "get_range_data"] →
     handle_call_tool w name None self
       = (Return [text_content "Error: 'NoneType' object has no attribute 'get'"],
          self, [])) ∧
  (∀ name drive,
     name ∈ ["list_spreadsheets"; "search_spreadsheets_by_name"] →
     drive_service self = Some drive →
     handle_call_tool w name None self
       = (Return [text_content (json_dumps (error_envelope
            "An error occurred: 'NoneType' object has no attribute 'get'") 2)],
          self, [])).
Proof.
  destruct self as [sheets drive0]. simpl in Hservice. subst sheets. split.
  - intros name Hname. rewrite !elem_of_cons in Hname.
    destruct Hname as [->|[->|[->|[->|[->|Hname]]]]];
      [reflexivity..|by apply elem_of_nil in Hname].
  - intros name drive Hname Hdrive. simpl in Hdrive. subst drive0.
    rewrite !elem_of_cons in Hname.
    destruct Hname as [->|[->|Hname]]; [reflexivity..|by apply elem_of_nil in Hname].
Qed.

Lemma call_without_arguments_witness :
  handle_call_tool world_oauth "read_sheet_data" None server_oauth
    = (Return [text_content "Error: 'NoneType' object has no attribute 'get'"],
       server_oauth, []).
Proof.
  apply (proj1 (call_without_arguments world_oauth server_oauth oauth_sheets eq_refl)).
  apply elem_of_cons. by left.
Defined.

(** X8.  In every state of the server, each tool the catalog advertises is
    a capability the resource document names and a name the dispatcher
    knows: called with an argument mapping on a server that has its Sheets
    service, it answers with an envelope, never with the plain text of an
    unknown tool, unless its provider request raises an exception that is
    not an [Exception], which passes through.  The resource document names
    the seven dispatched names and no other. *)
Theorem advertised_tools_are_dispatched (self : server) (tool : Tool)
    (Htool : tool ∈ handle_list_tools self) :
  tool_name tool ∈ capabilities ∧
  capabilities ≡ₚ tool_table ∧
  ∀ w d, is_Some (sheets_service self) →
    ∃ r tr,
      handle_call_tool w (tool_name tool) (Some d) self = (r, self, tr) ∧
      match r with
      | Return content => ∃ t, content = [text_content t] ∧ envelope t
      | Raise e => is_Exception e = false ∧ provider_raises w tr e
      end.
Proof.
  assert (tool_name tool ∈ tool_table) as Hin.
  { unfold handle_list_tools in Htool.
    destruct (drive_service self); [apply elem_of_app in Htool as [Htool|Htool]|];
      unfold base_tools, drive_tools, tool_table in *;
      rewrite !elem_of_cons in Htool; rewrite !elem_of_cons;
      repeat (destruct Htool as [->|Htool]; [simpl; tauto|]);
      by apply elem_of_nil in Htool. }
  assert (capabilities ≡ₚ tool_table) as Hperm.
  { unfold capabilities, tool_table. do 5 apply perm_skip. apply perm_swap. }
  split; [by rewrite Hperm|]. split; [done|].
  intros w d Hs.
  destruct (handle_call_tool_established w (tool_name tool) (Some d) self Hs)
    as (r & tr & Hcall & _ & _ & _ & Hr).
  exists r, tr. split; [done|]. destruct r as [content|e]; [|done].
  destruct Hr as (t & -> & Ht). eauto.
Qed.

Lemma advertised_tools_are_dispatched_witness :
  ∃ tool, tool ∈ handle_list_tools server_oauth ∧
          tool_name tool = "search_spreadsheets_by_name" ∧
          tool_name tool ∈ capabilities.
Proof.
  exists (default (Build_Tool EmptyString EmptyString VNone)
            (handle_list_tools server_oauth !! 6%nat)).
  assert (default (Build_Tool EmptyString EmptyString VNone)
            (handle_list_tools server_oauth !! 6%nat) ∈ handle_list_tools server_oauth)
    as Hin by (apply list_elem_of_lookup; by exists 6%nat).
  split; [exact Hin|]. split; [reflexivity|].
  exact (proj1 (advertised_tools_are_dispatched server_oauth _ Hin)).
Defined.

(** ** The server object over a whole run *)

Lemma authenticate_keeps_drive_implies_sheets w self r self1 tr :
  drive_implies_sheets self →
  authenticate_google_services w self = (r, self1, tr) →
  drive_implies_sheets self1.
Proof.
  unfold drive_implies_sheets. intros Hinv Hrun.
  auth_cases Hrun; simpl; eauto.
Qed.

Lemma call_keeps_drive_implies_sheets w name arguments self :
  drive_implies_sheets self →
  drive_implies_sheets (handle_call_tool w name arguments self).1.2.
Proof.
  intros Hinv. destruct (sheets_service self) as [h|] eqn:Hs.
  - destruct (handle_call_tool_established w name arguments self (ex_intro _ h Hs))
      as (r & tr & -> & _). done.
  - unfold handle_call_tool, mbind, M_bind, get_self, mret, M_ret. rewrite Hs.
    destruct (authenticate_google_services w self) as [[[[]|e] self1] tr1] eqn:Hauth;
      pose proof (authenticate_keeps_drive_implies_sheets _ _ _ _ _ Hinv Hauth) as Hinv1;
      [|done].
    destruct (dispatch_answered w name arguments self1) as (r & tr & Heq & _).
    unfold mret, M_ret in Heq. by rewrite Heq.
Qed.

Lemma serve_keeps_drive_implies_sheets calls self :
  drive_implies_sheets self → drive_implies_sheets (serve calls self).1.2.
Proof.
  revert self. induction calls as [|[[w name] arguments] calls IH]; intros self Hinv.
  - done.
  - simpl. pose proof (call_keeps_drive_implies_sheets w name arguments self Hinv) as H1.
    destruct (handle_call_tool w name arguments self) as [[r self1] tr1]. simpl in H1.
    specialize (IH self1 H1). by destruct (serve calls self1) as [[rs self2] tr2].
Qed.

(** X9.  Through a whole run of [main], the pre-authentication and then
    any tool calls in any worlds, the Drive service is set only when the
    Sheets service is; so a catalog of 7 tools is never advertised by a
    server that lacks its Sheets service. *)
Theorem main_keeps_drive_implies_sheets (w : World)
    (calls : list (World * string * option (gmap string pyval))) :
  drive_implies_sheets (main w calls).1.2 ∧
  (length (handle_list_tools (main w calls).1.2) = 7%nat →
   is_Some (sheets_service (main w calls).1.2)).
Proof.
  assert (drive_implies_sheets (main w calls).1.2) as Hinv.
  { unfold main, main_pre_authenticate, try_except.
    destruct (authenticate_google_services w init) as [[r self1] tr1] eqn:Hauth.
    assert (drive_implies_sheets self1) as H1.
    { eapply authenticate_keeps_drive_implies_sheets; [|exact Hauth].
      intros [? H]. discriminate H. }
    pose proof (serve_keeps_drive_implies_sheets calls self1 H1) as H2.
    destruct r as [|e]; [|destruct (is_Exception e)]; simpl;
      try done; by destruct (serve calls self1) as [[rs self2] tr2]. }
  split; [exact Hinv|]. intros Hlen. apply Hinv.
  unfold handle_list_tools in Hlen. destruct (drive_service _); [eauto|discriminate Hlen].
Qed.

(** ** The operations in general *)

Lemma mapM_result_Forall2 {A B} (f : A → result B) (l : list A) :
  Forall (λ x, ∃ y, f x = Return y) l →
  ∃ l', mapM f l = Return l' ∧ Forall2 (λ x y, f x = Return y) l l'.
Proof.
  induction 1 as [|x l [y Hy] _ (l' & Hl' & IH)].
  - exists []. by split.
  - exists (y :: l'). rewrite mapM_result_cons, Hy, Hl'. split; [done|].
    by constructor.
Qed.

Lemma mapM_result_raise {A B} (f : A → result B) (l : list A) :
  Exists (λ x, ∃ e, f x = Raise e) l → ∃ e, mapM f l = Raise e.
Proof.
  induction 1 as [x l [e He]|x l _ [e IH]]; rewrite mapM_result_cons.
  - rewrite He. eauto.
  - destruct (f x); [rewrite IH|]; eauto.
Qed.

(** X10.  When the provider request raises, what each operation does
    depends on the class of the exception alone.  An [Exception] is
    answered with an error envelope that carries its text: as it is for the
    five Sheets operations, after [An error occurred: ] for the two Drive
    operations.  Anything else ([KeyboardInterrupt], [SystemExit], a
    cancellation) is not caught: the operation raises it. *)
Theorem provider_failure_is_reported (w : World) (self : server) (h : handle)
    (d : gmap string pyval) (e : exn)
    (Hservice : sheets_service self = Some h)
    (Hvalues : ∀ kwargs, sheets_values_get w h kwargs = Raise e)
    (Hget : ∀ kwargs, sheets_get w h kwargs = Raise e) :
  (is_Exception e = true →
   (_read_sheet_data w (Some d) self).1.1
     = Return [text_content (json_dumps (error_envelope (exn_str e)) 2)] ∧
   (_get_sheet_metadata w (Some d) self).1.1
     = Return [text_content (json_dumps (error_envelope (exn_str e)) 2)] ∧
   (_list_sheets w (Some d) self).1.1
     = Return [text_content (json_dumps (error_envelope (exn_str e)) 2)] ∧
   (_search_sheet_data w (Some d) self).1.1
     = Return [text_content (json_dumps (error_envelope (exn_str e)) 2)] ∧
   (_get_range_data w (Some d) self).1.1
     = Return [text_content (json_dumps (error_envelope (exn_str e)) 2)] ∧
   (∀ drive,
      drive_service self = Some drive →
      (∀ kwargs, drive_files_list w drive kwargs = Raise e) →
      (_list_spreadsheets w (Some d) self).1.1
        = Return [text_content (json_dumps (error_envelope
            ("An error occurred: " +:+ exn_str e)) 2)] ∧
      (_search_spreadsheets_by_name w (Some d) self).1.1
        = Return [text_content (json_dumps (error_envelope
            ("An error occurred: " +:+ exn_str e)) 2)])) ∧
  (is_Exception e = false →
   (_read_sheet_data w (Some d) self).1.1 = Raise e ∧
   (_get_sheet_metadata w (Some d) self).1.1 = Raise e ∧
   (_list_sheets w (Some d) self).1.1 = Raise e ∧
   (_search_sheet_data w (Some d) self).1.1 = Raise e ∧
   (_get_range_data w (Some d) self).1.1 = Raise e ∧
   (∀ drive,
      drive_service self = Some drive →
      (∀ kwargs, drive_files_list w drive kwargs = Raise e) →
      (_list_spreadsheets w (Some d) self).1.1 = Raise e ∧
      (_search_spreadsheets_by_name w (Some d) self).1.1 = Raise e ∧
      (handle_call_tool w "list_spreadsheets" (Some d) self).1.1 = Raise e)).
Proof.
  split; intros He; repeat split.
  1-5, 8-12:
    unfold _read_sheet_data, _get_sheet_metadata, _list_sheets, _search_sheet_data,
      _get_range_data, arguments_get, spreadsheets; unfold_M; cbn beta iota zeta;
    rewrite Hservice; cbn beta iota zeta; rewrite ?Hvalues, ?Hget;
    cbn beta iota zeta; by rewrite He.
  all: unfold handle_call_tool;
       change (String.eqb "list_spreadsheets" "list_spreadsheets") with true;
       cbn beta iota zeta;
       unfold _list_spreadsheets, _search_spreadsheets_by_name, arguments_get; unfold_M;
       cbn beta iota zeta; rewrite ?Hservice; cbn beta iota zeta;
       match goal with H : drive_service _ = _ |- _ => rewrite H end;
       cbn beta iota zeta;
       match goal with
       | H : ∀ kwargs, drive_files_list _ _ kwargs = _ |- _ => rewrite H
       end;
       cbn beta iota zeta; rewrite ?He; cbn beta iota zeta; by rewrite ?He.
Qed.

Lemma provider_failure_is_reported_witness :
  (_read_sheet_data world_provider_down (Some ∅) server_oauth).1.1
    = Return [text_content (json_dumps (error_envelope "503 backend error") 2)] ∧
  (_list_spreadsheets world_provider_down (Some ∅) server_oauth).1.1
    = Return [text_content (json_dumps (error_envelope
        "An error occurred: 503 backend error") 2)].
Proof.
  pose proof (provider_failure_is_reported world_provider_down server_oauth oauth_sheets ∅
                (Exn "HttpError" "503 backend error") eq_refl (λ _, eq_refl) (λ _, eq_refl))
    as [Hcaught _].
  destruct (Hcaught eq_refl) as (Hread & _ & _ & _ & _ & Hdrive).
  split; [exact Hread|].
  exact (proj1 (Hdrive oauth_drive eq_refl (λ _, eq_refl))).
Defined.

(** X11.  A range without values is not an error for [_read_sheet_data]:
    whether the response has no [values] or an empty list, the reply is the
    success envelope with the message that no data was found and an empty
    [data]. *)
Theorem read_sheet_data_empty_range (w : World) (self : server) (h : handle)
    (d : gmap string pyval) (resp : Sheets.values_response)
    (Hservice : sheets_service self = Some h)
    (Hremote : ∀ kwargs, sheets_values_get w h kwargs = Return resp)
    (Hempty : Sheets.values resp = None ∨ Sheets.values resp = Some []) :
  (_read_sheet_data w (Some d) self).1.1
    = Return [text_content (json_dumps (VDict
        [("status", VStr "success");
         ("message", VStr "No data found in the specified range");
         ("data", VList [])]) 2)].
Proof.
  unfold _read_sheet_data, arguments_get, spreadsheets. unfold_M. cbn beta iota zeta.
  rewrite Hservice. cbn beta iota zeta. rewrite Hremote. cbn beta iota zeta.
  by destruct Hempty as [->| ->].
Qed.

Lemma read_sheet_data_empty_range_witness :
  (_read_sheet_data
     (world None false (Some "key") (Raise (Exn "RefreshError" "invalid_grant")) [])
     (Some {[ "spreadsheet_id" := VStr "abc" ]}) server_api_key).1.1
    = Return [text_content (json_dumps (VDict
        [("status", VStr "success");
         ("message", VStr "No data found in the specified range");
         ("data", VList [])]) 2)].
Proof.
  exact (read_sheet_data_empty_range
           (world None false (Some "key") (Raise (Exn "RefreshError" "invalid_grant")) [])
           server_api_key key_sheets {[ "spreadsheet_id" := VStr "abc" ]}
           {| Sheets.values := Some [] |} eq_refl (λ _, eq_refl) (or_intror eq_refl)).
Defined.

Ltac fold_mapM :=
  match goal with
  | |- context [@mapM _ ?b ?r _ _ ?f ?l] =>
      progress change (@mapM _ b r _ _ f l) with (mapM f l)
  end.

(** X12.  [_list_spreadsheets] counts what the provider lists.  No file:
    a success envelope with count 0.  Files that all have an [id] and a
    [name]: a success envelope whose [count] is the number of files and
    whose entries stand for the files in the provider's order, each with
    the file's [id] and [name].  A file without [id] or without [name]:
    an error envelope, and no partial list. *)
Theorem list_spreadsheets_counts_files (w : World) (self : server) (drive : handle)
    (d : gmap string pyval) (resp : Drive.file_list)
    (Hdrive : drive_service self = Some drive)
    (Hremote : ∀ kwargs, drive_files_list w drive kwargs = Return resp) :
  match default [] (Drive.files resp) with
  | [] =>
      (_list_spreadsheets w (Some d) self).1.1
        = Return [text_content (json_dumps (VDict
            [("status", VStr "success");
             ("message", VStr "No spreadsheets found.");
             ("count", VInt 0);
             ("spreadsheets", VList [])]) 2)]
  | items =>
      (Forall has_id_and_name items →
       ∃ entries,
         (_list_spreadsheets w (Some d) self).1.1
           = Return [text_content (json_dumps (VDict
               [("status", VStr "success");
                ("count", VInt (Z.of_nat (length items)));
                ("spreadsheets", VList entries);
                ("next_page_token", default VNone (Drive.nextPageToken resp))]) 2)] ∧
         Forall2 (λ item entry,
                    ∃ fields, entry = VDict fields ∧
                              field "id" fields = Drive.id item ∧
                              field "name" fields = Drive.name item)
                 items entries) ∧
      (Exists (λ item, ¬ has_id_and_name item) items →
       ∃ t, (_list_spreadsheets w (Some d) self).1.1 = Return [text_content t] ∧
            is_error_envelope t)
  end.
Proof.
  unfold _list_spreadsheets, arguments_get. unfold_M. cbn beta iota zeta.
  rewrite Hdrive. cbn beta iota zeta. rewrite Hremote. cbn beta iota zeta.
  destruct (default [] (Drive.files resp)) as [|item items]; [done|].
  fold_mapM.
  match goal with |- context [mapM ?f ?l] => set (entry_of := f); set (all := l) end.
  split.
  - intros Hall.
    destruct (mapM_result_Forall2 entry_of all) as (entries & Hm & HF2).
    { eapply Forall_impl; [exact Hall|]. intros x [[i Hi] [n Hn]].
      unfold entry_of, subscript, mbind, result_bind. rewrite Hi, Hn. eauto. }
    exists entries. rewrite Hm. cbn beta iota zeta.
    rewrite <- (Forall2_length _ _ _ HF2). split; [done|].
    eapply Forall2_impl; [exact HF2|]. intros x y Hxy.
    unfold entry_of, subscript, mbind, mret, result_bind, result_ret in Hxy.
    destruct (Drive.id x), (Drive.name x); try discriminate Hxy.
    injection Hxy as <-. eexists. split; [reflexivity|]. by split.
  - intros Hex.
    destruct (mapM_result_raise entry_of all) as (e & Hm).
    { eapply Exists_impl; [exact Hex|]. intros x Hx.
      unfold entry_of, subscript, mbind, result_bind.
      destruct (Drive.id x) eqn:Hi; [|eauto].
      destruct (Drive.name x) eqn:Hn; [|eauto].
      exfalso. apply Hx. split; rewrite ?Hi, ?Hn; eauto. }
    assert (is_Exception e = true) as He.
    { eapply mapM_raises_Exception; [|exact Hm].
      intros x e' Hx. unfold entry_of in Hx. own_raise Hx. }
    rewrite Hm. cbn beta iota zeta. rewrite He.
    eexists. split; [reflexivity|]. by eexists.
Qed.

Lemma list_spreadsheets_counts_files_witness :
  (_list_spreadsheets world_oauth (Some ∅) server_oauth).1.1
    = Return [text_content (json_dumps (VDict
        [("status", VStr "success");
         ("message", VStr "No spreadsheets found.");
         ("count", VInt 0);
         ("spreadsheets", VList [])]) 2)].
Proof.
  exact (list_spreadsheets_counts_files world_oauth server_oauth oauth_drive ∅ no_files
           eq_refl (λ _, eq_refl)).
Defined.

Lemma sheet_summary_needs_index (l : list Sheets.sheet) :
  Forall has_id_and_title l →
  Exists (λ sheet, ¬ has_index sheet) l →
  mapM sheet_summary l = Raise (KeyError "index").
Proof.
  intros Hall Hex. induction Hex as [x l Hx|x l _ IH]; rewrite mapM_result_cons;
    apply Forall_cons in Hall as [(props & Hp & [i Hi] & [t Ht]) Hall].
  - unfold sheet_summary, subscript, mbind, result_bind. rewrite Hp, Hi, Ht.
    destruct (Sheets.index props) eqn:Hidx; [|done].
    exfalso. apply Hx. exists props. rewrite Hidx. eauto.
  - rewrite (IH Hall).
    unfold sheet_summary, subscript, mbind, result_bind. rewrite Hp, Hi, Ht.
    by destruct (Sheets.index props).
Qed.

Lemma sheet_metadata_needs_no_index (l : list Sheets.sheet) :
  Forall has_id_and_title l →
  ∃ entries, mapM sheet_metadata l = Return entries ∧ length entries = length l.
Proof.
  intros Hall. destruct (mapM_result_Forall2 sheet_metadata l) as (entries & Hm & HF2).
  - eapply Forall_impl; [exact Hall|]. intros x (props & Hp & [i Hi] & [t Ht]).
    unfold sheet_metadata, subscript, mbind, result_bind. rewrite Hp, Hi, Ht. eauto.
  - exists entries. split; [done|]. symmetry. by eapply Forall2_length.
Qed.

(** X13.  The two operations on the tabs of a spreadsheet differ on a tab
    without [index]: when every tab has its properties with [sheetId] and
    [title] and some tab has no [index], [_list_sheets] answers with the
    error envelope of the missing key, while [_get_sheet_metadata], which
    never reads [index], answers with a success envelope that counts every
    tab. *)
Theorem list_sheets_needs_index (w : World) (self : server) (h : handle)
    (d : gmap string pyval) (resp : Sheets.spreadsheet)
    (Hservice : sheets_service self = Some h)
    (Hremote : ∀ kwargs, sheets_get w h kwargs = Return resp)
    (Htabs : Forall has_id_and_title (default [] (Sheets.sheets resp)))
    (Hindex : Exists (λ sheet, ¬ has_index sheet) (default [] (Sheets.sheets resp))) :
  (_list_sheets w (Some d) self).1.1
    = Return [text_content (json_dumps (error_envelope "'index'") 2)] ∧
  ∃ entries,
    (_get_sheet_metadata w (Some d) self).1.1
      = Return [text_content (json_dumps (VDict
          [("status", VStr "success");
           ("title", default VNone (Sheets.sp_properties resp ≫= Sheets.sp_title));
           ("locale", default VNone (Sheets.sp_properties resp ≫= Sheets.sp_locale));
           ("time_zone", default VNone (Sheets.sp_properties resp ≫= Sheets.sp_timeZone));
           ("sheet_count", VInt (Z.of_nat (length (default [] (Sheets.sheets resp)))));
           ("sheets", VList entries)]) 2)] ∧
    length entries = length (default [] (Sheets.sheets resp)).
Proof.
  split.
  - unfold _list_sheets, arguments_get, spreadsheets. unfold_M. cbn beta iota zeta.
    rewrite Hservice. cbn beta iota zeta. rewrite Hremote. cbn beta iota zeta.
    fold_mapM. by rewrite (sheet_summary_needs_index _ Htabs Hindex).
  - unfold _get_sheet_metadata, arguments_get, spreadsheets. unfold_M. cbn beta iota zeta.
    rewrite Hservice. cbn beta iota zeta. rewrite Hremote. cbn beta iota zeta.
    fold_mapM. destruct (sheet_metadata_needs_no_index _ Htabs) as (entries & Hm & Hlen).
    exists entries. split; [|done]. by rewrite Hm.
Qed.

Lemma list_sheets_needs_index_witness :
  (_list_sheets world_tab_without_index (Some ∅) server_oauth).1.1
    = Return [text_content (json_dumps (error_envelope "'index'") 2)] ∧
  ∃ entries,
    (_get_sheet_metadata world_tab_without_index (Some ∅) server_oauth).1.1
      = Return [text_content (json_dumps (VDict
          [("status", VStr "success");
           ("title", VNone);
           ("locale", VNone);
           ("time_zone", VNone);
           ("sheet_count", VInt 1);
           ("sheets", VList entries)]) 2)] ∧
    length entries = 1%nat.
Proof.
  refine (list_sheets_needs_index world_tab_without_index server_oauth oauth_sheets ∅
            spreadsheet_without_index eq_refl (λ _, eq_refl) _ _).
  - repeat constructor. exists (default (Sheets.Build_sheet_properties None None None None None)
                                 (Sheets.properties tab_without_index)).
    simpl. eauto.
  - apply Exists_cons_hd. intros (props & Hp & [i Hi]).
    injection Hp as <-. discriminate Hi.
Defined.

(** ** Searching, further *)

Lemma str_contains_empty (hay : string) : str_contains EmptyString hay = true.
Proof. by destruct hay. Qed.

Lemma length_row_matches_empty row_idx row col cells :
  length (row_matches EmptyString row_idx row col cells) = length cells.
Proof.
  revert col. induction cells as [|cell cells IH]; intros col; simpl; [done|].
  change (lower EmptyString) with EmptyString. rewrite str_contains_empty. simpl.
  by rewrite IH.
Qed.

Lemma length_grid_matches_empty row_idx rows :
  length (grid_matches EmptyString row_idx rows) = cell_count rows.
Proof.
  revert row_idx. induction rows as [|row rows IH]; intros row_idx; simpl; [done|].
  rewrite length_app, length_row_matches_empty, IH. done.
Qed.

Lemma row_matches_empty row_idx row col cells :
  row_matches EmptyString row_idx row col cells
  = imap (λ c cell, match_entry row_idx (col + Z.of_nat c) cell row) cells.
Proof.
  revert col. induction cells as [|cell cells IH]; intros col; [done|].
  cbn [row_matches]. change (lower EmptyString) with EmptyString.
  rewrite str_contains_empty, imap_cons, IH. cbn [app]. f_equal.
  - by rewrite Z.add_0_r.
  - apply imap_ext. intros c x _. simpl. f_equal. lia.
Qed.

Lemma grid_matches_empty row_idx rows :
  grid_matches EmptyString row_idx rows
  = concat (imap (λ r row,
                    imap (λ c cell,
                            match_entry (row_idx + Z.of_nat r) (Z.of_nat c) cell row) row)
                 rows).
Proof.
  revert row_idx. induction rows as [|row rows IH]; intros row_idx; [done|].
  cbn [grid_matches]. rewrite row_matches_empty, imap_cons, IH. cbn [concat]. f_equal.
  - apply imap_ext. intros c x _. simpl. f_equal. lia.
  - f_equal. apply imap_ext. intros r x _. simpl.
    apply imap_ext. intros c y _. simpl. f_equal. lia.
Qed.

(** X14.  The empty search term is in every cell: [_search_sheet_data]
    then reports every cell of the grid, each one once with its row and
    column counted from 1, the cell itself and its whole row, row by row
    and column by column within a row; [matches_found] is the number of
    cells. *)
Theorem empty_search_term_matches_every_cell (w : World) (self : server) (h : handle)
    (d : gmap string pyval) (resp : Sheets.values_response)
    (Hservice : sheets_service self = Some h)
    (Hterm : d !! "search_term" = Some (VStr EmptyString))
    (Hremote : ∀ kwargs, sheets_values_get w h kwargs = Return resp) :
  ∃ matches,
    (_search_sheet_data w (Some d) self).1.1
      = Return [text_content (json_dumps (VDict
          [("status", VStr "success");
           ("search_term", VStr EmptyString);
           ("sheet_name", default (VStr "Sheet1") (d !! "sheet_name"));
           ("matches_found", VInt (Z.of_nat (cell_count (default [] (Sheets.values resp)))));
           ("matches", VList matches)]) 2)] ∧
    matches
      = concat (imap (λ r row,
                        imap (λ c cell,
                                VDict [("row", VInt (Z.of_nat r + 1));
                                       ("column", VInt (Z.of_nat c + 1));
                                       ("cell_value", cell);
                                       ("full_row", VList row)]) row)
                     (default [] (Sheets.values resp))) ∧
    length matches = cell_count (default [] (Sheets.values resp)).
Proof.
  exists (grid_matches EmptyString 0 (default [] (Sheets.values resp))).
  split; [|split; [apply grid_matches_empty|apply length_grid_matches_empty]].
  unfold _search_sheet_data, arguments_get, spreadsheets, scan_values. unfold_M.
  cbn beta iota zeta. rewrite Hterm, Hservice. cbn beta iota zeta.
  change (default VNone (Some (VStr EmptyString))) with (VStr EmptyString).
  rewrite Hremote. cbn beta iota zeta.
  rewrite scan_values_spec. cbn [app]. by rewrite length_grid_matches_empty.
Qed.

Lemma empty_search_term_matches_every_cell_witness :
  (_search_sheet_data world_api_key
     (Some {[ "search_term" := VStr EmptyString ]}) server_api_key).1.1
    = Return [text_content (json_dumps (VDict
        [("status", VStr "success");
         ("search_term", VStr EmptyString);
         ("sheet_name", VStr "Sheet1");
         ("matches_found", VInt 4);
         ("matches", VList
            [VDict [("row", VInt 1); ("column", VInt 1); ("cell_value", VStr "Alice");
                    ("full_row", VList [VStr "Alice"; VStr "5"])];
             VDict [("row", VInt 1); ("column", VInt 2); ("cell_value", VStr "5");
                    ("full_row", VList [VStr "Alice"; VStr "5"])];
             VDict [("row", VInt 2); ("column", VInt 1); ("cell_value", VStr "bob");
                    ("full_row", VList [VStr "bob"; VStr "7"])];
             VDict [("row", VInt 2); ("column", VInt 2); ("cell_value", VStr "7");
                    ("full_row", VList [VStr "bob"; VStr "7"])]])]) 2)].
Proof.
  assert (({[ "search_term" := VStr EmptyString ]} : gmap string pyval) !! "search_term"
          = Some (VStr EmptyString)) as Hterm by (vm_compute; reflexivity).
  destruct (empty_search_term_matches_every_cell world_api_key server_api_key key_sheets
              {[ "search_term" := VStr EmptyString ]}
              {| Sheets.values := Some sample_grid |} eq_refl Hterm (λ _, eq_refl))
    as (matches & Hreply & -> & _).
  rewrite Hreply. vm_compute. reflexivity.
Defined.

Lemma row_matches_same_lower t1 t2 row_idx row col cells :
  lower t1 = lower t2 →
  row_matches t1 row_idx row col cells = row_matches t2 row_idx row col cells.
Proof.
  intros Hl. revert col. induction cells as [|cell cells IH]; intros col; simpl; [done|].
  by rewrite Hl, IH.
Qed.

Lemma grid_matches_same_lower t1 t2 row_idx rows :
  lower t1 = lower t2 → grid_matches t1 row_idx rows = grid_matches t2 row_idx rows.
Proof.
  intros Hl. revert row_idx. induction rows as [|row rows IH]; intros row_idx; simpl; [done|].
  by rewrite (row_matches_same_lower t1 t2 _ _ _ _ Hl), IH.
Qed.

(** X15.  The letter case of the search term does not matter: two terms
    with the same lower-case form, searched in the same sheet, get the same
    matches in the same order; the replies differ only in the term they
    echo. *)
Theorem search_ignores_case_of_term (w : World) (self : server) (h : handle)
    (d1 d2 : gmap string pyval) (t1 t2 : string) (resp : Sheets.values_response)
    (Hservice : sheets_service self = Some h)
    (Hterm1 : d1 !! "search_term" = Some (VStr t1))
    (Hterm2 : d2 !! "search_term" = Some (VStr t2))
    (Hcase : lower t1 = lower t2)
    (Hremote : ∀ kwargs, sheets_values_get w h kwargs = Return resp) :
  ∃ matches,
    (_search_sheet_data w (Some d1) self).1.1
      = Return [text_content (json_dumps (VDict
          [("status", VStr "success");
           ("search_term", VStr t1);
           ("sheet_name", default (VStr "Sheet1") (d1 !! "sheet_name"));
           ("matches_found", VInt (Z.of_nat (length matches)));
           ("matches", VList matches)]) 2)] ∧
    (_search_sheet_data w (Some d2) self).1.1
      = Return [text_content (json_dumps (VDict
          [("status", VStr "success");
           ("search_term", VStr t2);
           ("sheet_name", default (VStr "Sheet1") (d2 !! "sheet_name"));
           ("matches_found", VInt (Z.of_nat (length matches)));
           ("matches", VList matches)]) 2)].
Proof.
  exists (grid_matches t1 0 (default [] (Sheets.values resp))).
  unfold _search_sheet_data, arguments_get, spreadsheets, scan_values. unfold_M.
  cbn beta iota zeta. rewrite Hterm1, Hterm2, Hservice. cbn beta iota zeta.
  change (default VNone (Some (VStr t1))) with (VStr t1).
  change (default VNone (Some (VStr t2))) with (VStr t2).
  rewrite !Hremote. cbn beta iota zeta.
  rewrite !scan_values_spec. cbn beta iota zeta.
  by rewrite (grid_matches_same_lower t2 t1 _ _ (eq_sym Hcase)).
Qed.

Lemma search_ignores_case_of_term_witness :
  ∃ matches,
    (_search_sheet_data world_api_key (Some {[ "search_term" := VStr "OB" ]})
       server_api_key).1.1
      = Return [text_content (json_dumps (VDict
          [("status", VStr "success");
           ("search_term", VStr "OB");
           ("sheet_name", VStr "Sheet1");
           ("matches_found", VInt (Z.of_nat (length matches)));
           ("matches", VList matches)]) 2)] ∧
    (_search_sheet_data world_api_key (Some {[ "search_term" := VStr "ob" ]})
       server_api_key).1.1
      = Return [text_content (json_dumps (VDict
          [("status", VStr "success");
           ("search_term", VStr "ob");
           ("sheet_name", VStr "Sheet1");
           ("matches_found", VInt (Z.of_nat (length matches)));
           ("matches", VList matches)]) 2)].
Proof.
  assert (({[ "search_term" := VStr "OB" ]} : gmap string pyval) !! "search_term"
          = Some (VStr "OB")) as H1 by (vm_compute; reflexivity).
  assert (({[ "search_term" := VStr "ob" ]} : gmap string pyval) !! "search_term"
          = Some (VStr "ob")) as H2 by (vm_compute; reflexivity).
  destruct (search_ignores_case_of_term world_api_key server_api_key key_sheets
              {[ "search_term" := VStr "OB" ]} {[ "search_term" := VStr "ob" ]}
              "OB" "ob" {| Sheets.values := Some sample_grid |}
              eq_refl H1 H2 eq_refl (λ _, eq_refl))
    as (matches & Hr1 & Hr2).
  exists matches. split; [rewrite Hr1|rewrite Hr2]; vm_compute; reflexivity.
Defined.

(** ** The catalog and the operations *)

Ltac default_applied :=
  intros Hnone; unfold arguments_get; unfold_M; cbn beta iota zeta;
  rewrite ?lookup_insert_eq, ?lookup_insert_ne by done; rewrite ?Hnone; reflexivity.

Lemma read_sheet_data_default_range w d self :
  d !! "range" = None →
  _read_sheet_data w (Some (<["range" := VStr "Sheet1"]> d)) self
    = _read_sheet_data w (Some d) self.
Proof. unfold _read_sheet_data. default_applied. Qed.

Lemma search_sheet_data_default_sheet_name w d self :
  d !! "sheet_name" = None →
  _search_sheet_data w (Some (<["sheet_name" := VStr "Sheet1"]> d)) self
    = _search_sheet_data w (Some d) self.
Proof. unfold _search_sheet_data. default_applied. Qed.

Lemma get_range_data_default_render w d self :
  d !! "value_render_option" = None →
  _get_range_data w (Some (<["value_render_option" := VStr "FORMATTED_VALUE"]> d)) self
    = _get_range_data w (Some d) self.
Proof. unfold _get_range_data. default_applied. Qed.

Lemma list_spreadsheets_default_limit w d self :
  d !! "limit" = None →
  _list_spreadsheets w (Some (<["limit" := VInt 20]> d)) self
    = _list_spreadsheets w (Some d) self.
Proof. unfold _list_spreadsheets. default_applied. Qed.

Lemma list_spreadsheets_default_order w d self :
  d !! "order_by" = None →
  _list_spreadsheets w (Some (<["order_by" := VStr "modifiedTime desc"]> d)) self
    = _list_spreadsheets w (Some d) self.
Proof. unfold _list_spreadsheets. default_applied. Qed.

Lemma search_spreadsheets_default_exact w d self :
  d !! "exact_match" = None →
  _search_spreadsheets_by_name w (Some (<["exact_match" := VBool false]> d)) self
    = _search_spreadsheets_by_name w (Some d) self.
Proof. unfold _search_spreadsheets_by_name. default_applied. Qed.

Ltac resolve_fields H :=
  repeat (cbn -[String.eqb] in H;
          match type of H with
          | context [String.eqb ?a ?b] =>
              tryif is_var b then fail else
              (let r := eval vm_compute in (String.eqb a b) in
               change (String.eqb a b) with r in H)
          end);
  cbn -[String.eqb] in H.

Ltac same_call lemma Hnone :=
  unfold handle_call_tool; cbn [tool_name String.eqb Ascii.eqb Bool.eqb];
  unfold mbind, M_bind, mret, M_ret, get_self, try_except;
  destruct (sheets_service _);
  [|destruct (authenticate_google_services _ _) as [[[[]|?] ?] ?]; [|reflexivity]];
  cbn beta iota zeta; by rewrite (lemma _ _ _ Hnone).

(** X16.  The defaults the catalog advertises are the defaults the
    operations apply: for every advertised tool and every property whose
    schema has a [default], a call that leaves the argument out is the
    same, in reply, server and trace, as the call that passes the
    advertised default. *)
Theorem advertised_defaults_are_applied (w : World) (self : server) (tool : Tool)
    (key : string) (v : pyval) (d : gmap string pyval)
    (Htool : tool ∈ handle_list_tools self)
    (Hdefault : advertised_default tool key = Some v)
    (Hnone : d !! key = None) :
  handle_call_tool w (tool_name tool) (Some (<[key := v]> d)) self
    = handle_call_tool w (tool_name tool) (Some d) self.
Proof.
  assert (tool ∈ base_tools ++ drive_tools) as Hin.
  { unfold handle_list_tools in Htool.
    destruct (drive_service self); [done|]. apply elem_of_app. by left. }
  clear Htool. unfold base_tools, drive_tools in Hin.
  rewrite elem_of_app, !elem_of_cons in Hin.
  destruct Hin as [[->|[->|[->|[->|[->|Hin]]]]]|[->|[->|Hin]]];
    try (by apply elem_of_nil in Hin);
    unfold advertised_default in Hdefault; resolve_fields Hdefault;
    repeat (match type of Hdefault with
            | context [String.eqb ?k key] =>
                let E := fresh "E" in
                destruct (String.eqb k key) eqn:E; try rewrite E in Hdefault;
                [apply String.eqb_eq in E; subst key|]
            end; resolve_fields Hdefault);
    cbn -[String.eqb] in Hdefault; try discriminate Hdefault; injection Hdefault as <-.
  - same_call read_sheet_data_default_range Hnone.
  - same_call search_sheet_data_default_sheet_name Hnone.
  - same_call get_range_data_default_render Hnone.
  - same_call list_spreadsheets_default_limit Hnone.
  - same_call list_spreadsheets_default_order Hnone.
  - same_call search_spreadsheets_default_exact Hnone.
Qed.

Lemma advertised_defaults_are_applied_witness :
  handle_call_tool world_api_key "read_sheet_data"
    (Some (<["range" := VStr "Sheet1"]> {[ "spreadsheet_id" := VStr "abc" ]}))
    server_api_key
  = handle_call_tool world_api_key "read_sheet_data"
      (Some {[ "spreadsheet_id" := VStr "abc" ]}) server_api_key.
Proof.
  assert (default (Build_Tool EmptyString EmptyString VNone)
            (handle_list_tools server_api_key !! 0%nat) ∈ handle_list_tools server_api_key)
    as Hin by (apply list_elem_of_lookup; by exists 0%nat).
  assert (({[ "spreadsheet_id" := VStr "abc" ]} : gmap string pyval) !! "range" = None)
    as Hnone by (vm_compute; reflexivity).
  exact (advertised_defaults_are_applied world_api_key server_api_key _ "range"
           (VStr "Sheet1") {[ "spreadsheet_id" := VStr "abc" ]} Hin eq_refl Hnone).
Defined.

Lemma authenticate_sets_drive w self self1 tr :
  authenticate_google_services w self = (Return (), self1, tr) →
  (∀ api_key, EvBuild "sheets" "v4" (WithDeveloperKey api_key) ∉ tr) →
  is_Some (drive_service self1).
Proof.
  intros Hrun Hkey. auth_cases Hrun; simpl; eauto;
    exfalso; eapply Hkey; simpl; rewrite !elem_of_cons; eauto.
Qed.

(** X17.  The catalog can grow between two calls: when a tool call on a
    server without its Sheets service (and so, in any run, without its
    Drive service) authenticates with OAuth credentials, that is, the
    authentication returns and built nothing from the API key, the server
    advertised 5 tools before the call and advertises 7 after it, whatever
    the tool called and its outcome. *)
Theorem lazy_authentication_extends_catalog (w : World) (name : string)
    (arguments : option (gmap string pyval)) (self : server)
    (Hinv : drive_implies_sheets self)
    (Hnone : sheets_service self = None)
    (Hauth : (authenticate_google_services w self).1.1 = Return ())
    (Hoauth : ∀ api_key,
       EvBuild "sheets" "v4" (WithDeveloperKey api_key)
         ∉ (authenticate_google_services w self).2) :
  length (handle_list_tools self) = 5%nat ∧
  length (handle_list_tools (handle_call_tool w name arguments self).1.2) = 7%nat.
Proof.
  assert (drive_service self = None) as Hd.
  { destruct (drive_service self) eqn:Hd; [|done].
    destruct Hinv as [h' Hh]; [by rewrite Hd|]. rewrite Hnone in Hh. discriminate Hh. }
  split; [unfold handle_list_tools; by rewrite Hd|].
  destruct (authenticate_google_services w self) as [[r self1] tr1] eqn:Hrun.
  simpl in Hauth, Hoauth. subst r.
  destruct (authenticate_sets_drive _ _ _ _ Hrun Hoauth) as [drive Hdrive].
  unfold handle_call_tool, mbind, M_bind, get_self, mret, M_ret. rewrite Hnone, Hrun.
  destruct (dispatch_answered w name arguments self1) as (r & tr & Heq & _).
  unfold mret, M_ret in Heq. rewrite Heq. simpl.
  unfold handle_list_tools. by rewrite Hdrive.
Qed.

Lemma lazy_authentication_extends_catalog_witness :
  length (handle_list_tools init) = 5%nat ∧
  length (handle_list_tools
            (handle_call_tool world_oauth "read_sheet_data" (Some ∅) init).1.2) = 7%nat.
Proof.
  apply (lazy_authentication_extends_catalog world_oauth "read_sheet_data" (Some ∅) init).
  - intros [h Hh]. discriminate Hh.
  - reflexivity.
  - reflexivity.
  - intros api_key Hin. not_in_trace Hin.
Defined.
